(** * The Transmission RPC client of goircbot (package [transmission])

    A shallow embedding of the package: the [Statistics] rendering, the
    session probe [sessionId], the transport [rpc] and the two typed
    operations [Stats] and [Add], together with the parts of the Go standard
    library they lean on ([fmt.Sprintf], [net/http] headers and round trips,
    [encoding/json]).

    Go values are modelled as follows.
    - [string] and [[]byte] are byte sequences: Rocq's [string].
    - [int] is an integer of 64 bits, as on the usual platforms: a [Z],
      with [/] being [Z.quot].
    - [error] is an interface value that may be [nil]: [option errorValue].
    - a function returning [(T, error)] returns a pair, as written in the
      source; library calls whose contract is "a result or an error" return
      a sum.
    - [http.Header] is [map[string][]string]: a [gmap string (list string)].
    - the network is the connection's HTTP client, a function from a request
      and the state of the outside world to an outcome and a new state. *)

From Stdlib Require Import ZArith NArith Ascii String List Bool.
From stdpp Require Import base option gmap strings list fin_maps pretty sorting.

Import ListNotations.
Local Open Scope string_scope.
Local Open Scope Z_scope.

(** ** Errors *)

(** The dynamic values behind Go's [error] in this package: the ones it
    creates itself with [errors.New] and [fmt.Errorf], and the ones handed
    back by [net/http], [net/url] and [encoding/json]. *)
Inductive errorValue : Type :=
| errorString (msg : string)
| netError (msg : string)
| jsonError (msg : string).

Abbreviation error := (option errorValue).
Abbreviation nil_error := (@None errorValue).

Module errors.

Definition New (msg : string) : error := Some (errorString msg).

End errors.

(** ** fmt.Sprintf, for the verbs of this package

    Verbs are taken without flags, width or precision. *)

Module fmt.

Inductive arg : Type :=
| Int (n : Z)
| Str (s : string).

(** [%v] of an [int] is its decimal numeral, of a [string] the string. *)
Definition value (a : arg) : string :=
  match a with
  | Int n => pretty n
  | Str s => s
  end.

Definition type (a : arg) : string :=
  match a with
  | Int _ => "int"
  | Str _ => "string"
  end.

Definition extra (args : list arg) : string :=
  match args with
  | [] => ""
  | _ => "%!(EXTRA " +:+
         String.concat ", " (map (fun a => type a +:+ "=" +:+ value a) args)
         +:+ ")"
  end.

(** One verb applied to one operand; a verb that does not fit the operand
    prints Go's [%!verb(type=value)]. *)
Definition verb (v : ascii) (a : arg) : string :=
  match v, a with
  | "v"%char, _ => value a
  | "d"%char, Int _ => value a
  | "s"%char, Str _ => value a
  | _, _ => "%!" +:+ String v (("(" +:+ type a +:+ "=" +:+ value a) +:+ ")")
  end.

Fixpoint Sprintf (format : string) (args : list arg) : string :=
  match format with
  | EmptyString => extra args
  | String "%"%char EmptyString => "%!(NOVERB)" +:+ extra args
  | String "%"%char (String "%"%char rest) => String "%"%char (Sprintf rest args)
  | String "%"%char (String v rest) =>
      match args with
      | [] => ("%!" +:+ String v "(MISSING)") +:+ Sprintf rest []
      | a :: args' => verb v a +:+ Sprintf rest args'
      end
  | String c rest => String c (Sprintf rest args)
  end.

Definition Errorf (format : string) (args : list arg) : error :=
  Some (errorString (Sprintf format args)).

End fmt.

(** ** strconv.ParseInt, base 10, 64 bits *)

Module strconv.

Fixpoint digits_value (acc : Z) (s : string) : option Z :=
  match s with
  | EmptyString => Some acc
  | String c r =>
      let d := Z.of_N (N_of_ascii c) - 48 in
      if (0 <=? d) && (d <=? 9) then digits_value (10 * acc + d) r else None
  end.

Definition ParseInt (s : string) : option Z :=
  let '(neg, ds) :=
    match s with
    | String c r =>
        if Ascii.eqb c "-" then (true, r)
        else if Ascii.eqb c "+" then (false, r)
        else (false, s)
    | EmptyString => (false, s)
    end in
  match ds with
  | EmptyString => None
  | _ =>
      n ← digits_value 0 ds;
      let v := if neg : bool then - n else n in
      if (- 2 ^ 63 <=? v) && (v <? 2 ^ 63) then Some v else None
  end.

End strconv.

(** ** encoding/json

    JSON texts are parsed into documents; a document is decoded into a Go
    variable field by field.  Number literals keep their text, since what
    they decode to depends on the type of the variable.  Two things are left
    out: bytes above 127 are taken and written as they are (the library does
    so for well-formed UTF-8 other than U+2028 and U+2029, and puts U+FFFD
    in the place of ill-formed bytes), and the text of the errors is not
    the library's. *)

Module json.

(** *** Documents *)
#[warnings="-register-all"]
Inductive doc : Type :=
| Null
| Bool (b : bool)
| Number (literal : string)
| Str (s : string)
| Array (elements : list doc)
| Object (members : list (string * doc)).

Definition dquote : ascii := "034".
Definition backslash : ascii := "092".

Definition in_range (lo hi c : ascii) : bool :=
  (N_of_ascii lo <=? N_of_ascii c)%N && (N_of_ascii c <=? N_of_ascii hi)%N.

Definition is_space (c : ascii) : bool :=
  Ascii.eqb c " " || Ascii.eqb c "009" || Ascii.eqb c "010" || Ascii.eqb c "013".

Definition is_digit (c : ascii) : bool := in_range "0" "9" c.

Fixpoint skip_space (s : string) : string :=
  match s with
  | String c r => if is_space c then skip_space r else s
  | EmptyString => s
  end.

(** The longest prefix of digits, and what follows it. *)
Fixpoint digits (s : string) : string * string :=
  match s with
  | String c r =>
      if is_digit c then let '(ds, r') := digits r in (String c ds, r') else ("", s)
  | EmptyString => ("", s)
  end.

Definition digits1 (s : string) : option (string * string) :=
  match digits s with
  | (EmptyString, _) => None
  | p => Some p
  end.

(** A number literal: an optional minus sign, an integer part without
    leading zero, an optional fraction and an optional exponent. *)
Definition scan_int (s : string) : option (string * string) :=
  match s with
  | String c r =>
      if Ascii.eqb c "0" then Some ("0", r)
      else if in_range "1" "9" c then
        let '(ds, r') := digits r in Some (String c ds, r')
      else None
  | EmptyString => None
  end.

Definition scan_frac (s : string) : option (string * string) :=
  match s with
  | String c r =>
      if Ascii.eqb c "." then
        '(ds, r') ← digits1 r; Some (String c ds, r')
      else Some ("", s)
  | EmptyString => Some ("", s)
  end.

Definition scan_exp (s : string) : option (string * string) :=
  match s with
  | String c r =>
      if Ascii.eqb c "e" || Ascii.eqb c "E" then
        match r with
        | String sg r1 =>
            if Ascii.eqb sg "+" || Ascii.eqb sg "-" then
              '(ds, r') ← digits1 r1; Some (String c (String sg ds), r')
            else '(ds, r') ← digits1 r; Some (String c ds, r')
        | EmptyString => None
        end
      else Some ("", s)
  | EmptyString => Some ("", s)
  end.

Definition scan_number (s : string) : option (string * string) :=
  let '(sign, s0) :=
    match s with
    | String c r => if Ascii.eqb c "-" then ("-", r) else ("", s)
    | EmptyString => ("", s)
    end in
  '(i, s1) ← scan_int s0;
  '(f, s2) ← scan_frac s1;
  '(e, s3) ← scan_exp s2;
  Some (sign +:+ i +:+ f +:+ e, s3).

(** *** String literals *)

Definition hex_val (c : ascii) : option N :=
  if in_range "0" "9" c then Some (N_of_ascii c - 48)%N
  else if in_range "a" "f" c then Some (N_of_ascii c - 87)%N
  else if in_range "A" "F" c then Some (N_of_ascii c - 55)%N
  else None.

Definition hex4 (a b c d : ascii) : option N :=
  x3 ← hex_val a; x2 ← hex_val b; x1 ← hex_val c; x0 ← hex_val d;
  Some (4096 * x3 + 256 * x2 + 16 * x1 + x0)%N.

(** The UTF-8 encoding of a code point below [0x110000]. *)
Definition utf8 (cp : N) : string :=
  let byte (n : N) := ascii_of_N n in
  let cont (n : N) := byte (128 + n mod 64)%N in
  if (cp <? 128)%N then String (byte cp) ""
  else if (cp <? 2048)%N then
    String (byte (192 + cp / 64)%N) (String (cont cp) "")
  else if (cp <? 65536)%N then
    String (byte (224 + cp / 4096)%N)
      (String (cont (cp / 64)%N) (String (cont cp) ""))
  else
    String (byte (240 + cp / 262144)%N)
      (String (cont (cp / 4096)%N)
         (String (cont (cp / 64)%N) (String (cont cp) ""))).

Definition replacement : string := utf8 65533%N.

Definition is_high (u : N) : bool := (55296 <=? u)%N && (u <? 56320)%N.
Definition is_low (u : N) : bool := (56320 <=? u)%N && (u <? 57344)%N.

Definition prepend (p : string) (o : option (string * string))
  : option (string * string) :=
  '(s, r) ← o; Some (p +:+ s, r).

Definition unescape1 (e : ascii) : option ascii :=
  if Ascii.eqb e dquote then Some dquote
  else if Ascii.eqb e backslash then Some backslash
  else if Ascii.eqb e "/" then Some "/"%char
  else if Ascii.eqb e "b" then Some "008"%char
  else if Ascii.eqb e "f" then Some "012"%char
  else if Ascii.eqb e "n" then Some "010"%char
  else if Ascii.eqb e "r" then Some "013"%char
  else if Ascii.eqb e "t" then Some "009"%char
  else None.

(** The text after an opening quote: the string it denotes and what
    follows the closing quote. *)
Fixpoint scan_string (s : string) : option (string * string) :=
  match s with
  | EmptyString => None
  | String c r =>
      if Ascii.eqb c dquote then Some ("", r)
      else if Ascii.eqb c backslash then
        match r with
        | EmptyString => None
        | String e r1 =>
            if Ascii.eqb e "u" then
              match r1 with
              | String h1 (String h2 (String h3 (String h4 r2))) =>
                  match hex4 h1 h2 h3 h4 with
                  | None => None
                  | Some u =>
                      if is_high u then
                        match r2 with
                        | String b (String v (String k1 (String k2 (String k3 (String k4 r3))))) =>
                            match (if Ascii.eqb b backslash && Ascii.eqb v "u"
                                   then hex4 k1 k2 k3 k4 else None) with
                            | Some u' =>
                                if is_low u' then
                                  prepend (utf8 (65536 + (u - 55296) * 1024 + (u' - 56320))%N)
                                          (scan_string r3)
                                else prepend replacement (scan_string r2)
                            | None => prepend replacement (scan_string r2)
                            end
                        | _ => prepend replacement (scan_string r2)
                        end
                      else if is_low u then prepend replacement (scan_string r2)
                      else prepend (utf8 u) (scan_string r2)
                  end
              | _ => None
              end
            else
              match unescape1 e with
              | Some a => prepend (String a "") (scan_string r1)
              | None => None
              end
        end
      else if (N_of_ascii c <? 32)%N then None
      else prepend (String c "") (scan_string r)
  end.

(** [s] without its prefix [word], when it has that prefix. *)
Fixpoint strip (word s : string) : option string :=
  match word, s with
  | EmptyString, _ => Some s
  | String a w, String b r => if Ascii.eqb a b then strip w r else None
  | String _ _, EmptyString => None
  end.

Definition literal (word : string) (v : doc) (s : string) : option (doc * string) :=
  r ← strip word s; Some (v, r).

Fixpoint parse_value (fuel : nat) (s : string) : option (doc * string) :=
  match fuel with
  | O => None
  | S fuel =>
      match skip_space s with
      | EmptyString => None
      | String c r =>
          if Ascii.eqb c "{" then
            match skip_space r with
            | EmptyString => None
            | String c' r' =>
                if Ascii.eqb c' "}" then Some (Object [], r')
                else '(ms, r'') ← parse_members fuel (String c' r'); Some (Object ms, r'')
            end
          else if Ascii.eqb c "[" then
            match skip_space r with
            | EmptyString => None
            | String c' r' =>
                if Ascii.eqb c' "]" then Some (Array [], r')
                else '(es, r'') ← parse_elements fuel (String c' r'); Some (Array es, r'')
            end
          else if Ascii.eqb c dquote then
            '(str, r') ← scan_string r; Some (Str str, r')
          else if Ascii.eqb c "t" then literal "rue" (Bool true) r
          else if Ascii.eqb c "f" then literal "alse" (Bool false) r
          else if Ascii.eqb c "n" then literal "ull" Null r
          else '(lit, r') ← scan_number (String c r); Some (Number lit, r')
      end
  end
with parse_members (fuel : nat) (s : string) : option (list (string * doc) * string) :=
  match fuel with
  | O => None
  | S fuel =>
      match s with
      | EmptyString => None
      | String c r =>
          if Ascii.eqb c dquote then
            '(k, r1) ← scan_string r;
            match skip_space r1 with
            | EmptyString => None
            | String c1 r2 =>
                if Ascii.eqb c1 ":" then
                  '(v, r3) ← parse_value fuel r2;
                  match skip_space r3 with
                  | EmptyString => None
                  | String c3 r4 =>
                      if Ascii.eqb c3 "," then
                        '(ms, r5) ← parse_members fuel (skip_space r4);
                        Some ((k, v) :: ms, r5)
                      else if Ascii.eqb c3 "}" then Some ([(k, v)], r4)
                      else None
                  end
                else None
            end
          else None
      end
  end
with parse_elements (fuel : nat) (s : string) : option (list doc * string) :=
  match fuel with
  | O => None
  | S fuel =>
      '(v, r1) ← parse_value fuel s;
      match skip_space r1 with
      | EmptyString => None
      | String c r2 =>
          if Ascii.eqb c "," then
            '(es, r3) ← parse_elements fuel r2; Some (v :: es, r3)
          else if Ascii.eqb c "]" then Some ([v], r2)
          else None
      end
  end.

(** A whole text: one value, with nothing but white space around it. *)
Definition parse (s : string) : option doc :=
  '(v, r) ← parse_value (S (String.length s)) s;
  match skip_space r with
  | EmptyString => Some v
  | _ => None
  end.


(** *** Encoding *)

Definition hex_digit (n : N) : ascii :=
  if (n <? 10)%N then ascii_of_N (48 + n) else ascii_of_N (87 + n).

(** One byte of a string inside a literal, as [Marshal] writes it: the
    quote and the backslash behind a backslash, line feed, carriage return
    and tab as [\n], [\r] and [\t], the other control characters and the
    HTML characters [<], [>] and [&] as [\u00xx], every other byte as it
    is. *)
Definition escape_byte (c : ascii) : string :=
  if Ascii.eqb c dquote || Ascii.eqb c backslash then String backslash (String c "")
  else if Ascii.eqb c "010" then String backslash "n"
  else if Ascii.eqb c "013" then String backslash "r"
  else if Ascii.eqb c "009" then String backslash "t"
  else if (N_of_ascii c <? 32)%N || Ascii.eqb c "<" || Ascii.eqb c ">" || Ascii.eqb c "&"
  then String backslash
         (String "u" (String "0" (String "0"
            (String (hex_digit (N_of_ascii c / 16)) (String (hex_digit (N_of_ascii c mod 16)) "")))))
  else String c "".

Fixpoint escape (s : string) : string :=
  match s with
  | EmptyString => ""
  | String c r => escape_byte c +:+ escape r
  end.

Definition quote (s : string) : string :=
  String dquote (escape s +:+ String dquote "").

(** The Go values this package hands to [Marshal] as [interface{}]. *)
#[warnings="-register-all"]
Inductive any : Type :=
| GoBool (b : bool)
| GoString (s : string)
| GoMapString (m : gmap string string)
| GoMap (m : gmap string any)
| GoChan.

Definition key_le (a b : string * string) : Prop := String.leb a.1 b.1.

#[global] Instance key_le_dec a b : Decision (key_le a b) :=
  Is_true_dec (String.leb a.1 b.1).

(** An object from its encoded members: keys in sorted order. *)
Definition encode_object (members : list (string * string)) : string :=
  "{" +:+ String.concat ","
            (map (fun kv => quote kv.1 +:+ ":" +:+ kv.2) (merge_sort key_le members))
      +:+ "}".

Definition unsupported : errorValue := jsonError "json: unsupported type: chan".

Fixpoint encode (v : any) : errorValue + string :=
  match v with
  | GoBool true => inr "true"
  | GoBool false => inr "false"
  | GoString s => inr (quote s)
  | GoMapString m => inr (encode_object (map_to_list (quote <$> m)))
  | GoMap m =>
      match mapM (fun kv : string * (errorValue + string) =>
                    match kv.2 with inr e => Some (kv.1, e) | inl _ => None end)
                 (map_to_list (encode <$> m)) with
      | Some members => inr (encode_object members)
      | None => inl unsupported
      end
  | GoChan => inl unsupported
  end.

(** [func Marshal(v interface{}) ([]byte, error)]. *)
Definition Marshal (v : any) : string * error :=
  match encode v with
  | inr text => (text, nil_error)
  | inl e => ("", Some e)
  end.


(** *** Decoding into Go variables *)

(** Decoding a document into a variable of type [T]: the new content of
    the variable and the first error met; decoding goes on after a
    mismatch. *)
Definition Decoder (T : Type) : Type := doc -> T -> T * error.

Definition kind (j : doc) : string :=
  match j with
  | Null => "null"
  | Bool _ => "bool"
  | Number _ => "number"
  | Str _ => "string"
  | Array _ => "array"
  | Object _ => "object"
  end.

Definition type_error (what goType : string) : error :=
  Some (jsonError ("json: cannot unmarshal " +:+ what +:+
                   " into Go value of type " +:+ goType)).

Definition first_error (e1 e2 : error) : error :=
  match e1 with
  | Some _ => e1
  | None => e2
  end.

(** Into an [int]: [null] changes nothing; a number must be a decimal
    integer that fits. *)
Definition decode_int : Decoder Z := fun j old =>
  match j with
  | Null => (old, nil_error)
  | Number lit =>
      match strconv.ParseInt lit with
      | Some n => (n, nil_error)
      | None => (old, type_error ("number " +:+ lit) "int")
      end
  | _ => (old, type_error (kind j) "int")
  end.

Definition decode_string : Decoder string := fun j old =>
  match j with
  | Null => (old, nil_error)
  | Str s => (s, nil_error)
  | _ => (old, type_error (kind j) "string")
  end.

(** Field names match keys exactly or, failing that, up to case: upper
    and lower case ASCII letters, the long s (U+017F) for [s] and the
    Kelvin sign (U+212A) for [k]. *)
Fixpoint fold_name (s : string) : string :=
  match s with
  | EmptyString => ""
  | String c r =>
      if in_range "A" "Z" c
      then String (ascii_of_N (N_of_ascii c + 32)) (fold_name r)
      else
        match r with
        | String c1 r1 =>
            if Ascii.eqb c "197" && Ascii.eqb c1 "191" then String "s" (fold_name r1)
            else
              match r1 with
              | String c2 r2 =>
                  if Ascii.eqb c "226" && Ascii.eqb c1 "132" && Ascii.eqb c2 "170"
                  then String "k" (fold_name r2)
                  else String c (fold_name r)
              | EmptyString => String c (fold_name r)
              end
        | EmptyString => String c (fold_name r)
        end
  end.

Definition equal_fold (name key : string) : bool :=
  String.eqb (fold_name name) (fold_name key).

Definition find_field {T} (fields : list (string * Decoder T)) (key : string)
  : option (Decoder T) :=
  match find (fun f => String.eqb f.1 key) fields with
  | Some f => Some f.2
  | None => snd <$> find (fun f => equal_fold f.1 key) fields
  end.

(** Into a struct: the members of an object are taken in order, each one
    decoded into the field its key names; keys that name no field are
    skipped; [null] changes nothing. *)
Definition decode_struct {T} (goType : string)
    (fields : list (string * Decoder T)) : Decoder T := fun j old =>
  match j with
  | Null => (old, nil_error)
  | Object members =>
      fold_left
        (fun (acc : T * error) (m : string * doc) =>
           match find_field fields m.1 with
           | None => acc
           | Some dec =>
               let '(t, e) := dec m.2 acc.1 in (t, first_error acc.2 e)
           end)
        members (old, nil_error)
  | _ => (old, type_error (kind j) goType)
  end.

(** The decoder of a struct field, from the decoder of its type. *)
Definition field {T F} (get : T -> F) (set : F -> T -> T) (dec : Decoder F)
  : Decoder T := fun j t =>
  let '(x, e) := dec j (get t) in (set x t, e).

(** [func Unmarshal(data []byte, v interface{}) error], with the variable
    [v] points to passed in and out.  A text that is not JSON is refused
    before anything is stored. *)
Definition Unmarshal {T} (dec : Decoder T) (data : string) (v : T) : T * error :=
  match parse data with
  | None => (v, Some (jsonError "json: syntax error"))
  | Some j => dec j v
  end.

End json.

(** ** net/http and io/ioutil *)

Module http.

(** A response body is a stream: reading it to the end yields the bytes
    that could be read and the error that ended the reading, if any. *)
Record ReadCloser : Type := mkBody {
  content : string;
  readError : error
}.

Record Response : Type := mkResponse {
  StatusCode : Z;
  Header : gmap string (list string);
  Body : ReadCloser
}.

Record Request : Type := mkRequest {
  Method : string;
  URL : string;
  ReqHeader : gmap string (list string);
  ReqBody : string
}.

(** [func (h Header) Add(key, value string)]: the value is appended to
    the values of the key.  The key used by this package is in canonical
    form already. *)
Definition Header_Add (key value : string) (h : gmap string (list string))
  : gmap string (list string) :=
  <[key := (default [] (h !! key) ++ [value])%list]> h.

(** [func NewRequest(method, urlStr string, body io.Reader)], given the
    verdict of [url.Parse] on the URL: a new request has no header. *)
Definition NewRequest (url_Parse : string -> error) (method urlStr body : string)
  : errorValue + Request :=
  match url_Parse urlStr with
  | Some e => inl e
  | None => inr (mkRequest method urlStr ∅ body)
  end.

End http.

Module ioutil.

Definition ReadAll (b : http.ReadCloser) : string * error :=
  (http.content b, http.readError b).

End ioutil.

(** ** Package transmission *)

(** [type Statistics struct]: five [int] fields. *)
Record Statistics : Type := mkStatistics {
  DownloadSpeed : Z;
  UploadSpeed : Z;
  TorrentCount : Z;
  ActiveTorrentCount : Z;
  PausedTorrentcount : Z
}.

(** [func (s *Statistics) String() string]. *)
Definition Statistics_String (s : Statistics) : string :=
  fmt.Sprintf "%v KB/s DL, %v KB/s UL, %v torrents (%v active, %v paused)"
    [fmt.Int (DownloadSpeed s `quot` 1024); fmt.Int (UploadSpeed s `quot` 1024);
     fmt.Int (TorrentCount s); fmt.Int (ActiveTorrentCount s);
     fmt.Int (PausedTorrentcount s)].

(** [type sessionStats struct { Arguments Statistics; Result string }]. *)
Record sessionStats : Type := mkSessionStats {
  sessionStats_Arguments : Statistics;
  sessionStats_Result : string
}.

(** [type torrentAdded struct { Id int; Name, HashString string }]. *)
Record torrentAdded : Type := mkTorrentAdded {
  Id : Z;
  Name : string;
  HashString : string
}.

(** [type torrentAddedArguments struct], one field tagged
    [json:"torrent-added"]. *)
Record torrentAddedArguments : Type := mkTorrentAddedArguments {
  TorrentAdded : torrentAdded
}.

(** [type torrentAdd struct { Arguments torrentAddedArguments; Result string }]. *)
Record torrentAdd : Type := mkTorrentAdd {
  torrentAdd_Arguments : torrentAddedArguments;
  torrentAdd_Result : string
}.

(** The zero values of [var r sessionStats] and [var r torrentAdd]. *)
Definition zero_Statistics : Statistics := mkStatistics 0 0 0 0 0.
Definition zero_sessionStats : sessionStats := mkSessionStats zero_Statistics "".
Definition zero_torrentAdded : torrentAdded := mkTorrentAdded 0 "" "".
Definition zero_torrentAdd : torrentAdd :=
  mkTorrentAdd (mkTorrentAddedArguments zero_torrentAdded) "".

(** How [encoding/json] fills the structs of the package: the fields by
    their names, [TorrentAdded] by its tag. *)
Definition decode_Statistics : json.Decoder Statistics :=
  json.decode_struct "transmission.Statistics"
    [("DownloadSpeed",
      json.field DownloadSpeed
        (fun n s => mkStatistics n (UploadSpeed s) (TorrentCount s)
                      (ActiveTorrentCount s) (PausedTorrentcount s))
        json.decode_int);
     ("UploadSpeed",
      json.field UploadSpeed
        (fun n s => mkStatistics (DownloadSpeed s) n (TorrentCount s)
                      (ActiveTorrentCount s) (PausedTorrentcount s))
        json.decode_int);
     ("TorrentCount",
      json.field TorrentCount
        (fun n s => mkStatistics (DownloadSpeed s) (UploadSpeed s) n
                      (ActiveTorrentCount s) (PausedTorrentcount s))
        json.decode_int);
     ("ActiveTorrentCount",
      json.field ActiveTorrentCount
        (fun n s => mkStatistics (DownloadSpeed s) (UploadSpeed s) (TorrentCount s)
                      n (PausedTorrentcount s))
        json.decode_int);
     ("PausedTorrentcount",
      json.field PausedTorrentcount
        (fun n s => mkStatistics (DownloadSpeed s) (UploadSpeed s) (TorrentCount s)
                      (ActiveTorrentCount s) n)
        json.decode_int)].

Definition decode_sessionStats : json.Decoder sessionStats :=
  json.decode_struct "transmission.sessionStats"
    [("Arguments",
      json.field sessionStats_Arguments
        (fun a r => mkSessionStats a (sessionStats_Result r)) decode_Statistics);
     ("Result",
      json.field sessionStats_Result
        (fun s r => mkSessionStats (sessionStats_Arguments r) s) json.decode_string)].

Definition decode_torrentAdded : json.Decoder torrentAdded :=
  json.decode_struct "transmission.torrentAdded"
    [("Id",
      json.field Id (fun n t => mkTorrentAdded n (Name t) (HashString t))
        json.decode_int);
     ("Name",
      json.field Name (fun s t => mkTorrentAdded (Id t) s (HashString t))
        json.decode_string);
     ("HashString",
      json.field HashString (fun s t => mkTorrentAdded (Id t) (Name t) s)
        json.decode_string)].

Definition decode_torrentAddedArguments : json.Decoder torrentAddedArguments :=
  json.decode_struct "transmission.torrentAddedArguments"
    [("torrent-added",
      json.field TorrentAdded (fun t _ => mkTorrentAddedArguments t)
        decode_torrentAdded)].

Definition decode_torrentAdd : json.Decoder torrentAdd :=
  json.decode_struct "transmission.torrentAdd"
    [("Arguments",
      json.field torrentAdd_Arguments
        (fun a r => mkTorrentAdd a (torrentAdd_Result r))
        decode_torrentAddedArguments);
     ("Result",
      json.field torrentAdd_Result
        (fun s r => mkTorrentAdd (torrentAdd_Arguments r) s) json.decode_string)].

(** The header that carries the session id, and the path of the service. *)
Definition sessionHeader : string := "X-Transmission-Session-Id".
Definition rpcPath : string := "/transmission/rpc".

(** The requests of the two operations, as the Go map literals they are. *)
Definition statsRequest : json.any :=
  json.GoMapString {[ "method" := "session-stats" ]}.

Definition addRequest (url : string) : json.any :=
  json.GoMap
    {[ "method" := json.GoString "torrent-add";
       "arguments" := json.GoMap {[ "paused" := json.GoBool false;
                                    "filename" := json.GoString url ]} ]}.

Section Client.

(** The state of everything outside the program: the remote service and
    the network in between. *)
Context {World : Type}.

(** [url.Parse], reduced to its verdict: [nil] for a well-formed URL. *)
Variable url_Parse : string -> error.

(** [type Conn struct { url string; client http.Client }].  The client is
    what it does with a request: it answers with a response or with a
    transport error, and leaves the world in a new state. *)
Record Conn : Type := mkConn {
  url : string;
  client : http.Request -> World -> (errorValue + http.Response) * World
}.

(** The state threaded through the program: the world, and the requests
    the program has handed to its client so far, oldest first. *)
Record Net : Type := mkNet {
  world : World;
  sent : list http.Request
}.

Definition IO (A : Type) : Type := Net -> A * Net.

#[global] Instance IO_ret : MRet IO := fun A a n => (a, n).

#[global] Instance IO_bind : MBind IO :=
  fun A B k m n => let '(a, n') := m n in k a n'.

(** [client.Do]: the request goes out and is recorded. *)
Definition client_Do (c : Conn) (req : http.Request)
  : IO (errorValue + http.Response) :=
  fun n =>
    let '(r, w') := client c req (world n) in
    (r, mkNet w' (sent n ++ [req])%list).

(** [client.Get]: builds a GET request without body and sends it. *)
Definition client_Get (c : Conn) (urlStr : string)
  : IO (errorValue + http.Response) :=
  match http.NewRequest url_Parse "GET" urlStr "" with
  | inl e => mret (inl e)
  | inr req => client_Do c req
  end.

(** [func (c *Conn) sessionId() (string, error)].  The deferred
    [resp.Body.Close()] has no part in the result. *)
Definition sessionId (c : Conn) : IO (string * error) :=
  r ← client_Get c (url c +:+ rpcPath);
  match r with
  | inl err => mret ("", Some err)
  | inr resp =>
      match http.Header resp !! sessionHeader with
      | None =>                                     (* !ok *)
          mret ("", errors.New "transmission: sessionId not found")
      | Some [] =>                                  (* len(values) < 1 *)
          mret ("", errors.New "transmission: sessionId not found")
      | Some (v0 :: _) => mret (v0, nil_error)      (* values[0] *)
      end
  end.

(** [func (c *Conn) rpc(request interface{}) ([]byte, error)]; the [nil]
    slice is the empty byte sequence. *)
Definition rpc (c : Conn) (request : json.any) : IO (string * error) :=
  '(sessId, err) ← sessionId c;
  match err with
  | Some _ => mret ("", err)
  | None =>
      let '(js, err) := json.Marshal request in
      match err with
      | Some _ => mret ("", err)
      | None =>
          match http.NewRequest url_Parse "POST" (url c +:+ rpcPath) js with
          | inl err => mret ("", Some err)
          | inr req =>
              let req :=
                http.mkRequest (http.Method req) (http.URL req)
                  (http.Header_Add sessionHeader sessId (http.ReqHeader req))
                  (http.ReqBody req) in
              r ← client_Do c req;
              match r with
              | inl err => mret ("", Some err)
              | inr resp => mret (ioutil.ReadAll (http.Body resp))
              end
          end
      end
  end.

(** [func (c *Conn) Stats()], returning a pointer to [Statistics] ([nil] is
    [None]) and an [error]. *)
Definition Stats (c : Conn) : IO (option Statistics * error) :=
  '(b, err) ← rpc c statsRequest;
  match err with
  | Some _ => mret (None, err)
  | None =>
      let '(r, err) := json.Unmarshal decode_sessionStats b zero_sessionStats in
      match err with
      | Some _ => mret (None, err)
      | None =>
          if decide (sessionStats_Result r ≠ "success")
          then mret (None, fmt.Errorf "transmission: result: %s"
                             [fmt.Str (sessionStats_Result r)])
          else mret (Some (sessionStats_Arguments r), nil_error)
      end
  end.

(** [func (c *Conn) Add(url string) (string, error)]. *)
Definition Add (c : Conn) (url : string) : IO (string * error) :=
  '(b, err) ← rpc c (addRequest url);
  match err with
  | Some _ => mret ("", err)
  | None =>
      let '(r, err) := json.Unmarshal decode_torrentAdd b zero_torrentAdd in
      match err with
      | Some _ => mret ("", err)
      | None =>
          if decide (torrentAdd_Result r ≠ "success")
          then mret ("", fmt.Errorf "transmission: result: %s"
                           [fmt.Str (torrentAdd_Result r)])
          else if decide (Name (TorrentAdded (torrentAdd_Arguments r)) = "")
          then mret ("", errors.New "transmission: empty result")
          else mret (Name (TorrentAdded (torrentAdd_Arguments r)), nil_error)
      end
  end.

End Client.

Arguments Conn : clear implicits.
Arguments Net : clear implicits.
Arguments IO : clear implicits.
Arguments mkConn {World} url client.
Arguments mkNet {World} world sent.

(** The two requests a connection puts on the wire: the probe for a session
    id, and the call that carries the id [token] and the text [js]. *)
Definition probe {World} (c : Conn World) : http.Request :=
  http.mkRequest "GET" (url c +:+ rpcPath) ∅ "".

Definition call {World} (c : Conn World) (token js : string) : http.Request :=
  http.mkRequest "POST" (url c +:+ rpcPath) {[ sessionHeader := [token] ]} js.

(** The requests sent between the states [n] and [n']. *)
Definition issued {World} (n n' : Net World) : list http.Request :=
  drop (length (sent n)) (sent n').

(** The requests of one [rpc] from the state [n]: nothing, the probe alone,
    or the probe followed by one call, which carries the id the probe was
    answered with and the encoded request. *)
Inductive rpc_requests {World} (url_Parse : string -> error)
    (c : Conn World) (request : json.any) (n : Net World)
  : list http.Request -> Prop :=
| rpc_nothing :
    url_Parse (url c +:+ rpcPath) <> None ->
    rpc_requests url_Parse c request n []
| rpc_probe_only :
    rpc_requests url_Parse c request n [probe c]
| rpc_probe_call resp w1 token vs js :
    client c (probe c) (world n) = (inr resp, w1) ->
    http.Header resp !! sessionHeader = Some (token :: vs) ->
    json.Marshal request = (js, nil_error) ->
    rpc_requests url_Parse c request n [probe c; call c token js].

(** The keys of the object a text denotes, in the order of the text. *)
Definition object_keys (text : string) : option (list string) :=
  match json.parse text with
  | Some (json.Object members) => Some (map fst members)
  | _ => None
  end.

(** A text with every apostrophe turned into a double quote, to write JSON
    texts down. *)
Definition jq (s : string) : string :=
  string_of_list_ascii
    (map (fun c => if Ascii.eqb c "'" then json.dquote else c)
       (list_ascii_of_string s)).

(** The text [Marshal] writes for [statsRequest], and the one it writes
    for [addRequest], [q] being the literal of the URL. *)
Definition stats_text : string := jq "{'method':'session-stats'}".

Definition add_text (q : string) : string :=
  jq "{'arguments':{'filename':" +:+ q +:+
  jq ",'paused':false},'method':'torrent-add'}".

(** The answers of the remote service quoted in the specification. *)
Definition failure_body : string := jq "{'result':'failure','arguments':{}}".

Definition ubuntu_body : string :=
  jq "{'result':'success','arguments':{'torrent-added':{'Id':1,'Name':'Ubuntu.iso','HashString':'abc123'}}}".

Definition unnamed_body : string :=
  jq "{'result':'success','arguments':{'torrent-added':{'Id':1,'Name':'','HashString':''}}}".

(** An answer in the wording of the remote service, whose keys start in
    lower case, and the answer to a link it has already. *)
Definition stats_body : string :=
  jq "{'arguments':{'activeTorrentCount':1,'downloadSpeed':1048576,'pausedTorrentCount':2,'torrentCount':3,'uploadSpeed':0},'result':'success'}".

Definition duplicate_body : string :=
  jq "{'result':'duplicate torrent','arguments':{}}".

(** ** Remote services to run the client against *)

(** Every URL is well formed. *)
Definition any_url : string -> error := fun _ => nil_error.

(** A service that answers every GET with [probe] and every other request
    with [answer]; the world counts the requests received. *)
Definition scripted (probe answer : errorValue + http.Response)
    (req : http.Request) (w : nat) : (errorValue + http.Response) * nat :=
  (if decide (http.Method req = "GET") then probe else answer, S w).

(** The answer to a probe of a service whose session header has the given
    values, and the answer to a call with the given body. *)
Definition conflict_response (values : list string) : http.Response :=
  http.mkResponse 409 {[ sessionHeader := values ]} (http.mkBody "" nil_error).

Definition conflict (values : list string) : errorValue + http.Response :=
  inr (conflict_response values).

Definition ok (body : string) : errorValue + http.Response :=
  inr (http.mkResponse 200 ∅ (http.mkBody body nil_error)).

(** A service that issues a new session id at every probe: the world is
    the number of ids issued so far, and the id of probe [n] is the numeral
    of [n]. *)
Definition rotating (body : string) (req : http.Request) (w : nat)
  : (errorValue + http.Response) * nat :=
  if decide (http.Method req = "GET")
  then (conflict [pretty w], S w)
  else (ok body, w).

(** Connections to a rotating service, and to a service whose session
    header is there but empty. *)
Definition service (body : string) : Conn nat :=
  mkConn "http://localhost:9091" (rotating body).

Definition blank_service : Conn nat :=
  mkConn "http://localhost:9091" (scripted (conflict [""]) (ok "")).

Definition start : Net nat := mkNet 0%nat [].

(** The link given to [Add] in the examples. *)
Definition magnet : string := "magnet:?xt=urn:btih:abc123&dn=Ubuntu.iso".

(** The state after one call of [rpc] to the rotating service. *)
Definition later : Net nat := (rpc any_url (service "") statsRequest start).2.

(** ** The example bot

    [main] of the example bot parses its flags, makes a bot for the channels
    that [strings.Split] cuts out of the flag [channels] at its commas, and
    registers the plugins.  The bot and
    the plugins are other packages; what is of [main] itself is the list of
    channels it makes of the flag. *)

Module strings.

(** [sep] is a prefix of [s]. *)
Fixpoint HasPrefix (s sep : string) : bool :=
  match sep, s with
  | EmptyString, _ => true
  | String a sep', String b s' => Ascii.eqb a b && HasPrefix s' sep'
  | String _ _, EmptyString => false
  end.

(** The pieces of [s] between the occurrences of a separator that is not
    empty, found from the left; [skip] bytes of a separator just found are
    still to be passed over. *)
Fixpoint split_from (sep : string) (skip : nat) (s : string) : list string :=
  match s with
  | EmptyString => [""]
  | String c r =>
      match skip with
      | S k => split_from sep k r
      | O =>
          if HasPrefix s sep
          then "" :: split_from sep (String.length sep - 1) r
          else
            match split_from sep O r with
            | piece :: pieces => String c piece :: pieces
            | [] => [String c ""]
            end
      end
  end.

(** [func Split(s, sep string) []string].  With an empty separator the
    library cuts after every UTF-8 sequence; here after every byte, which
    is the same for ASCII text. *)
Definition Split (s sep : string) : list string :=
  match sep with
  | EmptyString => map (fun c => String c "") (list_ascii_of_string s)
  | _ => split_from sep O s
  end.

(** [func Join(a []string, sep string) string]. *)
Definition Join (a : list string) (sep : string) : string := String.concat sep a.

(** [func Count(s, sep string) int], for a separator of one byte. *)
Fixpoint CountByte (s : string) (c : ascii) : nat :=
  match s with
  | EmptyString => O
  | String b r => (if Ascii.eqb b c then 1 else 0) + CountByte r c
  end.

End strings.

(** The value of the flag [-channels] when it is not given, and the
    channels [main] hands to [bot.NewBot]. *)
Definition default_channels : string := "".

Definition main_channels (channels : string) : list string :=
  strings.Split channels ",".

(** ** Notions for the runs of an operation *)

(** The requests of one round: nothing, the probe alone, or the probe and
    then one call. *)
Definition one_round {World} (c : Conn World) (l : list http.Request) : Prop :=
  l = [] \/ l = [probe c] \/ exists token js, l = [probe c; call c token js].

(** From [n] to [n'] the log has only grown, by one round. *)
Definition bounded_run {World} (c : Conn World) (n n' : Net World) : Prop :=
  sent n' = (sent n ++ issued n n')%list /\ one_round c (issued n n').


(** The outcome of a call that brought no body to the end: a transport
    error, or an answer whose body broke off with an error. *)
Definition call_failed (r : errorValue + http.Response) (e : errorValue) : Prop :=
  r = inl e
  \/ exists resp, r = inr resp /\ http.readError (http.Body resp) = Some e.

(** All the bytes of a string are below 128. *)
Definition ascii_only (s : string) : bool :=
  forallb (fun c => (N_of_ascii c <? 128)%N) (list_ascii_of_string s).

(** Services that fail in one way each: the probe is not answered; the
    answer to the probe has no session header; the call is refused with a
    page in place of an answer; the body of the answer breaks off. *)
Definition silent : Conn nat :=
  mkConn "http://localhost:9091"
    (scripted (inl (netError "dial tcp: i/o timeout")) (ok "")).

Definition bare : Conn nat :=
  mkConn "http://localhost:9091" (scripted (ok "") (ok stats_body)).

Definition refusal : http.Response :=
  http.mkResponse 409 ∅ (http.mkBody "<h1>409: Conflict</h1>" nil_error).

Definition stale : Conn nat :=
  mkConn "http://localhost:9091" (scripted (conflict ["abc"]) (inr refusal)).

Definition cut_short : http.Response :=
  http.mkResponse 200 ∅
    (http.mkBody ubuntu_body (Some (netError "unexpected EOF"))).

Definition broken : Conn nat :=
  mkConn "http://localhost:9091" (scripted (conflict ["abc"]) (inr cut_short)).

(** A request that cannot be encoded, and an answer with a member that
    names no field. *)
Definition unencodable : json.any :=
  json.GoMap {[ "method" := json.GoChan ]}.

Definition tagged_body : string :=
  jq "{'arguments':{'torrent-added':{'Id':1,'Name':'Ubuntu.iso','HashString':'abc123'}},'tag':7,'result':'success'}".

Definition untagged_body : string :=
  jq "{'arguments':{'torrent-added':{'Id':1,'Name':'Ubuntu.iso','HashString':'abc123'}},'result':'success'}".

(** A document that says nothing of a result: [null], or an object none of
    whose keys is [result] in any case of the letters. *)
Definition lacks_result (j : json.doc) : Prop :=
  match j with
  | json.Null => True
  | json.Object members =>
      Forall (fun m : string * json.doc => json.fold_name m.1 <> "result") members
  | _ => False
  end.

(** An answer with arguments and no result. *)
Definition resultless_body : string := jq "{'arguments':{'torrentCount':3}}".

(** * Properties *)

(** ** Strings and formatting *)

Lemma append_assoc (a b c : string) : (a +:+ b) +:+ c = a +:+ (b +:+ c).
Proof.
  induction a as [|x a IH]; [reflexivity|].
  change (String x ((a +:+ b) +:+ c) = String x (a +:+ (b +:+ c))).
  now rewrite IH.
Qed.

Lemma append_nil_r (a : string) : a +:+ "" = a.
Proof.
  induction a as [|x a IH]; [reflexivity|].
  change (String x (a +:+ "") = String x a). now rewrite IH.
Qed.

(** The error of an unsuccessful result holds the result as it is. *)
Lemma Errorf_result (result : string) :
  fmt.Errorf "transmission: result: %s" [fmt.Str result]
  = Some (errorString ("transmission: result: " +:+ result)).
Proof.
  unfold fmt.Errorf. do 2 f_equal.
  change (fmt.Sprintf "transmission: result: %s" [fmt.Str result])
    with ("transmission: result: " +:+ (result +:+ "")).
  now rewrite append_nil_r.
Qed.

(** ** The JSON texts of the package *)

Section ParserRules.

Import json.

(** A string literal gives back the string it was written from. *)
Lemma scan_escape_byte c t :
  scan_string (escape_byte c +:+ t) = prepend (String c "") (scan_string t).
Proof. destruct c as [[] [] [] [] [] [] [] []]; reflexivity. Qed.

Lemma scan_escape s rest :
  scan_string (escape s +:+ String dquote rest) = Some (s, rest).
Proof.
  induction s as [|c s IH]; [reflexivity|].
  change (escape (String c s)) with (escape_byte c +:+ escape s).
  rewrite append_assoc, scan_escape_byte, IH. reflexivity.
Qed.

(** The parser, rule by rule, for the values met in a request. *)
Lemma parse_value_object f s r c r' ms r'' :
  skip_space s = String "{" r ->
  skip_space r = String c r' ->
  Ascii.eqb c "}" = false ->
  parse_members f (String c r') = Some (ms, r'') ->
  parse_value (S f) s = Some (Object ms, r'').
Proof.
  intros Hs Hr Hc Hms. cbn [parse_value]. rewrite Hs. cbn.
  rewrite Hr, Hc, Hms. reflexivity.
Qed.

Lemma parse_value_string f s r str r' :
  skip_space s = String dquote r ->
  scan_string r = Some (str, r') ->
  parse_value (S f) s = Some (Str str, r').
Proof.
  intros Hs Hr. cbn [parse_value]. rewrite Hs. cbn -[scan_string].
  rewrite Hr. reflexivity.
Qed.

Lemma parse_value_false f s r r' :
  skip_space s = String "f" r ->
  strip "alse" r = Some r' ->
  parse_value (S f) s = Some (Bool false, r').
Proof.
  intros Hs Hr. cbn [parse_value]. rewrite Hs. cbn -[strip]. unfold literal.
  rewrite Hr. reflexivity.
Qed.

Ltac member_step H :=
  cbn -[scan_string parse_value parse_members skip_space]; rewrite H.

Lemma parse_members_more f r k r1 r2 v r3 r4 ms r5 :
  scan_string r = Some (k, r1) ->
  skip_space r1 = String ":" r2 ->
  parse_value f r2 = Some (v, r3) ->
  skip_space r3 = String "," r4 ->
  parse_members f (skip_space r4) = Some (ms, r5) ->
  parse_members (S f) (String dquote r) = Some ((k, v) :: ms, r5).
Proof.
  intros Hk H1 Hv H3 Hms. cbn [parse_members].
  member_step Hk. member_step H1. member_step Hv. member_step H3.
  member_step Hms. reflexivity.
Qed.

Lemma parse_members_last f r k r1 r2 v r3 r4 :
  scan_string r = Some (k, r1) ->
  skip_space r1 = String ":" r2 ->
  parse_value f r2 = Some (v, r3) ->
  skip_space r3 = String "}" r4 ->
  parse_members (S f) (String dquote r) = Some ([(k, v)], r4).
Proof.
  intros Hk H1 Hv H3. cbn [parse_members].
  member_step Hk. member_step H1. member_step Hv. member_step H3.
  reflexivity.
Qed.

End ParserRules.

Lemma Marshal_statsRequest : json.Marshal statsRequest = (stats_text, nil_error).
Proof. vm_compute. reflexivity. Qed.

Lemma parse_stats_text :
  json.parse stats_text = Some (json.Object [("method", json.Str "session-stats")]).
Proof. vm_compute. reflexivity. Qed.

Lemma encode_object_add (q : string) :
  json.encode_object
    [("arguments", json.encode_object [("filename", q); ("paused", "false")]);
     ("method", json.quote "torrent-add")]
  = add_text q.
Proof. cbv -[String.append]. rewrite !append_assoc. reflexivity. Qed.

Lemma Marshal_addRequest (u : string) :
  json.Marshal (addRequest u) = (add_text (json.quote u), nil_error).
Proof.
  rewrite <- encode_object_add. unfold json.Marshal.
  assert (H : json.encode (addRequest u) =
              inr (json.encode_object
                     [("arguments",
                       json.encode_object
                         [("filename", json.quote u); ("paused", "false")]);
                      ("method", json.quote "torrent-add")])).
  { vm_compute. reflexivity. }
  rewrite H. reflexivity.
Qed.

(** The text of an [addRequest] denotes an object with the method and the
    two arguments. *)
Lemma parse_add_text (u : string) :
  json.parse (add_text (json.quote u)) =
  Some (json.Object
          [("arguments",
            json.Object [("filename", json.Str u); ("paused", json.Bool false)]);
           ("method", json.Str "torrent-add")]).
Proof.
  unfold json.parse.
  assert (H : json.parse_value (S (String.length (add_text (json.quote u))))
                (add_text (json.quote u)) =
              Some (json.Object
                      [("arguments",
                        json.Object [("filename", json.Str u);
                                     ("paused", json.Bool false)]);
                       ("method", json.Str "torrent-add")], "")).
  { unfold add_text, json.quote.
    lazy [jq string_of_list_ascii list_ascii_of_string map Ascii.eqb Bool.eqb
            json.dquote String.append String.length].
    fold String.append. fold String.length.
    eapply parse_value_object; [reflexivity | reflexivity | reflexivity |].
    eapply parse_members_more; [reflexivity | reflexivity | | |].
    - eapply parse_value_object; [reflexivity | reflexivity | reflexivity |].
      eapply parse_members_more; [reflexivity | reflexivity | | |].
      + eapply parse_value_string; [reflexivity|].
        rewrite append_assoc. apply scan_escape.
      + reflexivity.
      + eapply parse_members_last; [reflexivity | reflexivity | |].
        * eapply parse_value_false; reflexivity.
        * reflexivity.
    - reflexivity.
    - eapply parse_members_last; [reflexivity | reflexivity | |].
      + eapply parse_value_string; reflexivity.
      + reflexivity. }
  rewrite H. reflexivity.
Qed.

Lemma Unmarshal_failure_body :
  json.Unmarshal decode_sessionStats failure_body zero_sessionStats
  = (mkSessionStats zero_Statistics "failure", nil_error).
Proof. vm_compute. reflexivity. Qed.

Lemma Unmarshal_ubuntu_body :
  json.Unmarshal decode_torrentAdd ubuntu_body zero_torrentAdd
  = (mkTorrentAdd (mkTorrentAddedArguments (mkTorrentAdded 1 "Ubuntu.iso" "abc123"))
       "success", nil_error).
Proof. vm_compute. reflexivity. Qed.

Lemma Unmarshal_unnamed_body :
  json.Unmarshal decode_torrentAdd unnamed_body zero_torrentAdd
  = (mkTorrentAdd (mkTorrentAddedArguments (mkTorrentAdded 1 "" "")) "success",
     nil_error).
Proof. vm_compute. reflexivity. Qed.


Section Properties.

Context {World : Type}.
Variable url_Parse : string -> error.

Implicit Types (c : Conn World) (n : Net World).

(** ** The session probe *)

(** What [sessionId] does, case by case. *)
Lemma sessionId_unfold c n :
  sessionId url_Parse c n =
  match url_Parse (url c +:+ rpcPath) with
  | Some e => (("", Some e), n)
  | None =>
      let '(r, w') := client c (probe c) (world n) in
      (match r with
       | inl e => ("", Some e)
       | inr resp =>
           match http.Header resp !! sessionHeader with
           | Some (v0 :: _) => (v0, nil_error)
           | _ => ("", errors.New "transmission: sessionId not found")
           end
       end,
       mkNet w' (sent n ++ [probe c]))
  end.
Proof.
  unfold sessionId, client_Get, http.NewRequest, client_Do, probe.
  unfold mbind, IO_bind, mret, IO_ret.
  destruct (url_Parse (url c +:+ rpcPath)) as [e|]; [reflexivity|].
  destruct (client c _ (world n)) as [[e|resp] w']; [reflexivity|].
  destruct (http.Header resp !! sessionHeader) as [[|v0 vs]|]; reflexivity.
Qed.

(** C1, as the code has it: when the probe is answered, [sessionId] fails
    with its own error exactly when the answer has no session header or
    the header has no value; a header whose first value is the empty
    string is not a failure. *)
Theorem sessionId_not_found_iff c n resp w' :
  url_Parse (url c +:+ rpcPath) = None ->
  client c (probe c) (world n) = (inr resp, w') ->
  ((sessionId url_Parse c n).1.2 = errors.New "transmission: sessionId not found"
   <-> (http.Header resp !! sessionHeader = None
        \/ http.Header resp !! sessionHeader = Some []))
  /\ (forall vs, http.Header resp !! sessionHeader = Some ("" :: vs) ->
      (sessionId url_Parse c n).1 = ("", nil_error)).
Proof.
  intros Hurl Hget. rewrite sessionId_unfold, Hurl, Hget. simpl.
  destruct (http.Header resp !! sessionHeader) as [[|v0 vs]|]; simpl.
  - split; [split; auto | intros vs [=]].
  - split.
    + split; [intros [=] | intros [[=] | [=]]].
    + intros vs' [= -> ->]. reflexivity.
  - split; [split; auto | intros vs [=]].
Qed.

(** C2: the first value of the session header is returned as it was
    received, with no error. *)
Theorem sessionId_verbatim c n resp w' v vs :
  url_Parse (url c +:+ rpcPath) = None ->
  client c (probe c) (world n) = (inr resp, w') ->
  http.Header resp !! sessionHeader = Some (v :: vs) ->
  v <> "" ->
  sessionId url_Parse c n = ((v, nil_error), mkNet w' (sent n ++ [probe c])).
Proof.
  intros Hurl Hget Hhdr _. rewrite sessionId_unfold, Hurl, Hget, Hhdr. reflexivity.
Qed.

(** ** The transport *)

Lemma Header_Add_fresh key value :
  http.Header_Add key value ∅ = {[ key := [value] ]}.
Proof.
  unfold http.Header_Add. rewrite lookup_empty. simpl. apply insert_empty.
Qed.

(** What [rpc] does, case by case. *)
Lemma rpc_unfold c request n :
  rpc url_Parse c request n =
  match sessionId url_Parse c n with
  | ((_, Some e), n1) => (("", Some e), n1)
  | ((sessId, None), n1) =>
      match json.Marshal request with
      | (_, Some e) => (("", Some e), n1)
      | (js, None) =>
          match url_Parse (url c +:+ rpcPath) with
          | Some e => (("", Some e), n1)
          | None =>
              let '(r, w2) := client c (call c sessId js) (world n1) in
              (match r with
               | inl e => ("", Some e)
               | inr resp => ioutil.ReadAll (http.Body resp)
               end,
               mkNet w2 (sent n1 ++ [call c sessId js]))
          end
      end
  end.
Proof.
  unfold rpc, mbind, IO_bind.
  destruct (sessionId url_Parse c n) as [[sessId [e|]] n1]; [reflexivity|].
  destruct (json.Marshal request) as [js [e|]]; [reflexivity|].
  unfold http.NewRequest.
  destruct (url_Parse (url c +:+ rpcPath)) as [e|]; [reflexivity|].
  simpl. rewrite Header_Add_fresh. unfold client_Do, call.
  destruct (client c _ (world n1)) as [[e|resp] w2]; reflexivity.
Qed.

Lemma issued_app n n' (l : list http.Request) :
  sent n' = (sent n ++ l)%list -> issued n n' = l.
Proof. unfold issued. intros ->. apply drop_app_length. Qed.

Lemma rpc_issued c request n :
  rpc_requests url_Parse c request n (issued n (rpc url_Parse c request n).2).
Proof.
  rewrite rpc_unfold, sessionId_unfold.
  destruct (url_Parse (url c +:+ rpcPath)) as [e|] eqn:Hurl.
  { simpl. erewrite issued_app; [|symmetry; apply app_nil_r].
    constructor. congruence. }
  destruct (client c (probe c) (world n)) as [[e|resp] w1] eqn:Hget.
  { simpl. erewrite issued_app; [|reflexivity]. constructor. }
  destruct (http.Header resp !! sessionHeader) as [[|token vs]|] eqn:Hhdr;
    try (simpl; erewrite issued_app; [|reflexivity]; constructor).
  destruct (json.Marshal request) as [js [e|]] eqn:Hjs.
  { simpl. erewrite issued_app; [|reflexivity]. constructor. }
  simpl. destruct (client c (call c token js) w1) as [r w2].
  simpl. erewrite issued_app; [|rewrite <- app_assoc; reflexivity].
  simpl. econstructor; eauto.
Qed.

(** C3: a POST sent by [rpc] comes second, right after the probe of the
    same invocation, and its session header holds the one id that this
    probe was answered with, whatever happened before the invocation. *)
Theorem rpc_fresh_token c request n req :
  req ∈ issued n (rpc url_Parse c request n).2 ->
  http.Method req = "POST" ->
  exists resp w1 token vs,
    client c (probe c) (world n) = (inr resp, w1)
    /\ http.Header resp !! sessionHeader = Some (token :: vs)
    /\ issued n (rpc url_Parse c request n).2 = [probe c; req]
    /\ http.ReqHeader req = {[ sessionHeader := [token] ]}.
Proof.
  intros Hin Hpost.
  destruct (rpc_issued c request n) as [Hurl | | resp w1 token vs js Hget Hhdr Hjs].
  - inversion Hin.
  - apply list_elem_of_singleton in Hin. subst req. discriminate Hpost.
  - apply elem_of_cons in Hin as [-> | Hin]; [discriminate Hpost|].
    apply list_elem_of_singleton in Hin. subst req.
    exists resp, w1, token, vs. auto.
Qed.

(** The calls of [rpc] carry the encoded request. *)
Lemma rpc_call_body c request n req :
  req ∈ issued n (rpc url_Parse c request n).2 ->
  http.Method req = "POST" ->
  json.Marshal request = (http.ReqBody req, nil_error).
Proof.
  intros Hin Hpost.
  destruct (rpc_issued c request n) as [Hurl | | resp w1 token vs js Hget Hhdr Hjs].
  - inversion Hin.
  - apply list_elem_of_singleton in Hin. subst req. discriminate Hpost.
  - apply elem_of_cons in Hin as [-> | Hin]; [discriminate Hpost|].
    apply list_elem_of_singleton in Hin. subst req. exact Hjs.
Qed.

(** With a well-formed URL, an answered probe and a request that can be
    encoded, [rpc] sends its call. *)
Lemma rpc_sends_call c request n resp w1 token vs js :
  url_Parse (url c +:+ rpcPath) = None ->
  client c (probe c) (world n) = (inr resp, w1) ->
  http.Header resp !! sessionHeader = Some (token :: vs) ->
  json.Marshal request = (js, nil_error) ->
  issued n (rpc url_Parse c request n).2 = [probe c; call c token js].
Proof.
  intros Hurl Hget Hhdr Hjs.
  rewrite rpc_unfold, sessionId_unfold, Hurl, Hget, Hhdr. simpl.
  rewrite Hjs.
  destruct (client c (call c token js) w1) as [r w2]. simpl.
  apply issued_app. rewrite <- app_assoc. reflexivity.
Qed.

(** ** The operations *)

Lemma Stats_unfold c n :
  Stats url_Parse c n =
  match rpc url_Parse c statsRequest n with
  | ((_, Some e), n1) => ((None, Some e), n1)
  | ((b, None), n1) =>
      (match json.Unmarshal decode_sessionStats b zero_sessionStats with
       | (_, Some e) => (None, Some e)
       | (r, None) =>
           if decide (sessionStats_Result r = "success")
           then (Some (sessionStats_Arguments r), nil_error)
           else (None, Some (errorString ("transmission: result: " +:+
                                          sessionStats_Result r)))
       end, n1)
  end.
Proof.
  unfold Stats, mbind, IO_bind.
  destruct (rpc url_Parse c statsRequest n) as [[b [e|]] n1]; [reflexivity|].
  destruct (json.Unmarshal _ b _) as [r [e|]]; [reflexivity|].
  rewrite Errorf_result.
  destruct (decide (sessionStats_Result r = "success")) as [Heq|Hne].
  - rewrite decide_False by auto. reflexivity.
  - rewrite decide_True by auto. reflexivity.
Qed.

Lemma Add_unfold c u n :
  Add url_Parse c u n =
  match rpc url_Parse c (addRequest u) n with
  | ((_, Some e), n1) => (("", Some e), n1)
  | ((b, None), n1) =>
      (match json.Unmarshal decode_torrentAdd b zero_torrentAdd with
       | (_, Some e) => ("", Some e)
       | (r, None) =>
           if decide (torrentAdd_Result r = "success")
           then
             if decide (Name (TorrentAdded (torrentAdd_Arguments r)) = "")
             then ("", errors.New "transmission: empty result")
             else (Name (TorrentAdded (torrentAdd_Arguments r)), nil_error)
           else ("", Some (errorString ("transmission: result: " +:+
                                        torrentAdd_Result r)))
       end, n1)
  end.
Proof.
  unfold Add, mbind, IO_bind.
  destruct (rpc url_Parse c (addRequest u) n) as [[b [e|]] n1]; [reflexivity|].
  destruct (json.Unmarshal _ b _) as [r [e|]]; [reflexivity|].
  rewrite Errorf_result.
  destruct (decide (torrentAdd_Result r = "success")) as [Heq|Hne].
  - rewrite decide_False by auto.
    destruct (decide (Name (TorrentAdded (torrentAdd_Arguments r)) = ""));
      reflexivity.
  - rewrite decide_True by auto. reflexivity.
Qed.

(** The operations put on the wire what their [rpc] does. *)
Lemma Stats_net c n :
  (Stats url_Parse c n).2 = (rpc url_Parse c statsRequest n).2.
Proof.
  rewrite Stats_unfold.
  destruct (rpc url_Parse c statsRequest n) as [[b [e|]] n1]; reflexivity.
Qed.

Lemma Add_net c u n :
  (Add url_Parse c u n).2 = (rpc url_Parse c (addRequest u) n).2.
Proof.
  rewrite Add_unfold.
  destruct (rpc url_Parse c (addRequest u) n) as [[b [e|]] n1]; reflexivity.
Qed.

(** C4: once the answer of the service is decoded, [Stats] goes by its
    result: the statistics for ["success"], and for anything else an error
    that ends with the result as the service wrote it.  The answer
    [{"result":"failure","arguments":{}}] gives the error of ["failure"]. *)
Theorem Stats_by_result c n b n' :
  rpc url_Parse c statsRequest n = ((b, nil_error), n') ->
  (forall r,
      json.Unmarshal decode_sessionStats b zero_sessionStats = (r, nil_error) ->
      Stats url_Parse c n =
      (if decide (sessionStats_Result r = "success")
       then (Some (sessionStats_Arguments r), nil_error)
       else (None, Some (errorString ("transmission: result: " +:+
                                      sessionStats_Result r))),
       n'))
  /\ (b = failure_body ->
      Stats url_Parse c n =
      ((None, Some (errorString "transmission: result: failure")), n')).
Proof.
  intros Hrpc. split.
  - intros r Hr. rewrite Stats_unfold, Hrpc, Hr. reflexivity.
  - intros ->. rewrite Stats_unfold, Hrpc, Unmarshal_failure_body. reflexivity.
Qed.

(** C5: a successful answer with a name makes [Add] return that name and
    no error; the answer naming [Ubuntu.iso] gives ["Ubuntu.iso"]. *)
Theorem Add_returns_name c u n b n' :
  rpc url_Parse c (addRequest u) n = ((b, nil_error), n') ->
  (forall r,
      json.Unmarshal decode_torrentAdd b zero_torrentAdd = (r, nil_error) ->
      torrentAdd_Result r = "success" ->
      Name (TorrentAdded (torrentAdd_Arguments r)) <> "" ->
      Add url_Parse c u n =
      ((Name (TorrentAdded (torrentAdd_Arguments r)), nil_error), n'))
  /\ (b = ubuntu_body ->
      Add url_Parse c u n = (("Ubuntu.iso", nil_error), n')).
Proof.
  intros Hrpc. split.
  - intros r Hr Hres Hname. rewrite Add_unfold, Hrpc, Hr.
    rewrite decide_True by assumption. rewrite decide_False by assumption.
    reflexivity.
  - intros ->. rewrite Add_unfold, Hrpc, Unmarshal_ubuntu_body. reflexivity.
Qed.

(** C6: a successful answer whose name is empty makes [Add] fail with the
    error of an empty result. *)
Theorem Add_empty_result c u n b n' :
  rpc url_Parse c (addRequest u) n = ((b, nil_error), n') ->
  (forall r,
      json.Unmarshal decode_torrentAdd b zero_torrentAdd = (r, nil_error) ->
      torrentAdd_Result r = "success" ->
      Name (TorrentAdded (torrentAdd_Arguments r)) = "" ->
      Add url_Parse c u n =
      (("", errors.New "transmission: empty result"), n'))
  /\ (b = unnamed_body ->
      Add url_Parse c u n =
      (("", errors.New "transmission: empty result"), n')).
Proof.
  intros Hrpc. split.
  - intros r Hr Hres Hname. rewrite Add_unfold, Hrpc, Hr.
    rewrite decide_True by assumption. rewrite decide_True by assumption.
    reflexivity.
  - intros ->. rewrite Add_unfold, Hrpc, Unmarshal_unnamed_body. reflexivity.
Qed.

(** C10: [Add] returns either no error and a name that is not empty, or an
    error and the empty name. *)
Theorem Add_name_iff_no_error c u n :
  ((Add url_Parse c u n).1.2 = nil_error /\ (Add url_Parse c u n).1.1 <> "")
  \/ ((Add url_Parse c u n).1.2 <> nil_error /\ (Add url_Parse c u n).1.1 = "").
Proof.
  rewrite Add_unfold.
  destruct (rpc url_Parse c (addRequest u) n) as [[b [e|]] n1]; simpl.
  { right. split; [discriminate | reflexivity]. }
  destruct (json.Unmarshal _ b _) as [r [e|]]; simpl.
  { right. split; [discriminate | reflexivity]. }
  destruct (decide (torrentAdd_Result r = "success")); simpl.
  - destruct (decide (Name (TorrentAdded (torrentAdd_Arguments r)) = "")); simpl.
    + right. split; [discriminate | reflexivity].
    + left. split; [reflexivity | assumption].
  - right. split; [discriminate | reflexivity].
Qed.

(** C8, as the code has it: the body of every call is a JSON object with
    the key [method]; the body of a call of [Add] has the key [arguments]
    as well, the body of a call of [Stats] has no other key. *)
Theorem call_body_keys c n req :
  http.Method req = "POST" ->
  (req ∈ issued n (Stats url_Parse c n).2 ->
   object_keys (http.ReqBody req) = Some ["method"])
  /\ (forall u, req ∈ issued n (Add url_Parse c u n).2 ->
      object_keys (http.ReqBody req) = Some ["arguments"; "method"]).
Proof.
  intros Hpost. split.
  - rewrite Stats_net. intros Hin.
    pose proof (rpc_call_body _ _ _ _ Hin Hpost) as Hjs.
    rewrite Marshal_statsRequest in Hjs. injection Hjs as <-.
    unfold object_keys. rewrite parse_stats_text. reflexivity.
  - intros u. rewrite Add_net. intros Hin.
    pose proof (rpc_call_body _ _ _ _ Hin Hpost) as Hjs.
    rewrite Marshal_addRequest in Hjs. injection Hjs as <-.
    unfold object_keys. rewrite parse_add_text. reflexivity.
Qed.

(** C9: [Add] puts on the wire what [rpc] does with its request; a call of
    [Add] holds the encoding of the map with the method ["torrent-add"] and
    the arguments [paused], false, and [filename], the URL; and the call is
    sent whenever the probe yields a session id. *)
Theorem Add_request c u n :
  (Add url_Parse c u n).2 = (rpc url_Parse c (addRequest u) n).2
  /\ (forall req,
      req ∈ issued n (Add url_Parse c u n).2 ->
      http.Method req = "POST" ->
      json.Marshal
        (json.GoMap
           {[ "method" := json.GoString "torrent-add";
              "arguments" :=
                json.GoMap {[ "paused" := json.GoBool false;
                              "filename" := json.GoString u ]} ]})
      = (http.ReqBody req, nil_error)
      /\ http.ReqBody req = add_text (json.quote u))
  /\ (forall resp w1 token vs,
      url_Parse (url c +:+ rpcPath) = None ->
      client c (probe c) (world n) = (inr resp, w1) ->
      http.Header resp !! sessionHeader = Some (token :: vs) ->
      issued n (Add url_Parse c u n).2
      = [probe c; call c token (add_text (json.quote u))]).
Proof.
  split; [apply Add_net | split].
  - intros req Hin Hpost. rewrite Add_net in Hin.
    pose proof (rpc_call_body _ _ _ _ Hin Hpost) as Hjs.
    split; [exact Hjs|].
    rewrite Marshal_addRequest in Hjs. now injection Hjs as <-.
  - intros resp w1 token vs Hurl Hget Hhdr. rewrite Add_net.
    eapply rpc_sends_call; eauto using Marshal_addRequest.
Qed.

End Properties.

(** C7: the rendering of statistics is the two speeds divided by 1024 as
    integers, then the three counts, in this wording; the statistics of the
    specification read as it says. *)
Theorem Statistics_String_format (s : Statistics) :
  Statistics_String s =
    pretty (DownloadSpeed s `quot` 1024) +:+ " KB/s DL, " +:+
    pretty (UploadSpeed s `quot` 1024) +:+ " KB/s UL, " +:+
    pretty (TorrentCount s) +:+ " torrents (" +:+
    pretty (ActiveTorrentCount s) +:+ " active, " +:+
    pretty (PausedTorrentcount s) +:+ " paused)"
  /\ Statistics_String (mkStatistics 1048576 0 3 1 2)
     = "1024 KB/s DL, 0 KB/s UL, 3 torrents (1 active, 2 paused)".
Proof. split; reflexivity. Qed.

(** * The properties at work *)

(** A session header with the empty string as its value: the probe yields
    the empty id and no error, where C1 has it fail. *)
Lemma sessionId_accepts_empty_value :
  client blank_service (probe blank_service) (world start)
  = (inr (conflict_response [""]), 1%nat)
  /\ http.Header (conflict_response [""]) !! sessionHeader = Some [""]
  /\ sessionId any_url blank_service start
     = (("", nil_error), mkNet 1%nat [probe blank_service])
  /\ (sessionId any_url blank_service start).1.2
     <> errors.New "transmission: sessionId not found".
Proof. repeat split; try reflexivity. discriminate. Qed.

Lemma sessionId_not_found_iff_witness :
  ((sessionId any_url blank_service start).1.2
   = errors.New "transmission: sessionId not found"
   <-> (http.Header (conflict_response [""]) !! sessionHeader = None
        \/ http.Header (conflict_response [""]) !! sessionHeader = Some []))
  /\ (forall vs,
        http.Header (conflict_response [""]) !! sessionHeader = Some ("" :: vs) ->
        (sessionId any_url blank_service start).1 = ("", nil_error)).
Proof.
  exact (sessionId_not_found_iff any_url blank_service start
           (conflict_response [""]) 1%nat eq_refl eq_refl).
Defined.

Lemma sessionId_verbatim_witness :
  sessionId any_url (service "") start
  = (("0", nil_error), mkNet 1%nat [probe (service "")]).
Proof.
  apply (sessionId_verbatim any_url (service "") start
           (conflict_response ["0"]) 1%nat "0" []);
    [reflexivity | reflexivity | reflexivity | discriminate].
Defined.

(** The second of two calls to the rotating service carries the second id. *)
Lemma rpc_fresh_token_witness :
  exists resp w1 token vs,
    client (service "") (probe (service "")) (world later) = (inr resp, w1)
    /\ http.Header resp !! sessionHeader = Some (token :: vs)
    /\ issued later (rpc any_url (service "") statsRequest later).2
       = [probe (service ""); call (service "") "1" stats_text]
    /\ http.ReqHeader (call (service "") "1" stats_text)
       = {[ sessionHeader := [token] ]}.
Proof.
  apply (rpc_fresh_token any_url (service "") statsRequest later
           (call (service "") "1" stats_text)).
  - vm_compute. apply list_elem_of_In. right. left. reflexivity.
  - reflexivity.
Defined.

Lemma Stats_by_result_witness :
  rpc any_url (service failure_body) statsRequest start
  = ((failure_body, nil_error),
     mkNet 1%nat [probe (service failure_body);
                  call (service failure_body) "0" stats_text])
  /\ Stats any_url (service failure_body) start
     = ((None, Some (errorString "transmission: result: failure")),
        mkNet 1%nat [probe (service failure_body);
                     call (service failure_body) "0" stats_text]).
Proof.
  assert (Hrpc : rpc any_url (service failure_body) statsRequest start
                 = ((failure_body, nil_error),
                    mkNet 1%nat [probe (service failure_body);
                                 call (service failure_body) "0" stats_text]))
    by (vm_compute; reflexivity).
  split; [exact Hrpc|].
  exact (proj2 (Stats_by_result any_url _ _ _ _ Hrpc) eq_refl).
Defined.

Lemma Add_returns_name_witness :
  rpc any_url (service ubuntu_body) (addRequest magnet) start
  = ((ubuntu_body, nil_error),
     mkNet 1%nat [probe (service ubuntu_body);
                  call (service ubuntu_body) "0" (add_text (json.quote magnet))])
  /\ Add any_url (service ubuntu_body) magnet start
     = (("Ubuntu.iso", nil_error),
        mkNet 1%nat [probe (service ubuntu_body);
                     call (service ubuntu_body) "0" (add_text (json.quote magnet))]).
Proof.
  assert (Hrpc : rpc any_url (service ubuntu_body) (addRequest magnet) start
                 = ((ubuntu_body, nil_error),
                    mkNet 1%nat
                      [probe (service ubuntu_body);
                       call (service ubuntu_body) "0"
                         (add_text (json.quote magnet))]))
    by (vm_compute; reflexivity).
  split; [exact Hrpc|].
  exact (proj2 (Add_returns_name any_url _ _ _ _ _ Hrpc) eq_refl).
Defined.

Lemma Add_empty_result_witness :
  rpc any_url (service unnamed_body) (addRequest magnet) start
  = ((unnamed_body, nil_error),
     mkNet 1%nat [probe (service unnamed_body);
                  call (service unnamed_body) "0" (add_text (json.quote magnet))])
  /\ Add any_url (service unnamed_body) magnet start
     = (("", errors.New "transmission: empty result"),
        mkNet 1%nat [probe (service unnamed_body);
                     call (service unnamed_body) "0" (add_text (json.quote magnet))]).
Proof.
  assert (Hrpc : rpc any_url (service unnamed_body) (addRequest magnet) start
                 = ((unnamed_body, nil_error),
                    mkNet 1%nat
                      [probe (service unnamed_body);
                       call (service unnamed_body) "0"
                         (add_text (json.quote magnet))]))
    by (vm_compute; reflexivity).
  split; [exact Hrpc|].
  exact (proj2 (Add_empty_result any_url _ _ _ _ _ Hrpc) eq_refl).
Defined.

(** The call of [Stats] is a JSON object with the one key [method]: it has
    no key [arguments], where C8 has every call hold both. *)
Lemma Stats_call_without_arguments :
  issued start (Stats any_url (service failure_body) start).2
  = [probe (service failure_body); call (service failure_body) "0" stats_text]
  /\ http.Method (call (service failure_body) "0" stats_text) = "POST"
  /\ http.ReqBody (call (service failure_body) "0" stats_text)
     = jq "{'method':'session-stats'}"
  /\ object_keys (http.ReqBody (call (service failure_body) "0" stats_text))
     = Some ["method"]
  /\ "arguments" ∉ ["method"].
Proof.
  repeat split; try (vm_compute; reflexivity).
  intros Hin. apply list_elem_of_singleton in Hin. discriminate Hin.
Qed.

Lemma call_body_keys_witness :
  http.Method (call (service ubuntu_body) "0" (add_text (json.quote magnet))) = "POST"
  /\ object_keys
       (http.ReqBody (call (service ubuntu_body) "0" (add_text (json.quote magnet))))
     = Some ["arguments"; "method"].
Proof.
  split; [reflexivity|].
  apply (proj2 (call_body_keys any_url (service ubuntu_body) start
                  (call (service ubuntu_body) "0" (add_text (json.quote magnet)))
                  eq_refl) magnet).
  vm_compute. apply list_elem_of_In. right. left. reflexivity.
Defined.

Lemma Add_request_witness :
  issued start (Add any_url (service ubuntu_body) magnet start).2
  = [probe (service ubuntu_body);
     call (service ubuntu_body) "0" (add_text (json.quote magnet))].
Proof.
  exact (proj2 (proj2 (Add_request any_url (service ubuntu_body) magnet start))
           (conflict_response ["0"]) 1%nat "0" [] eq_refl eq_refl eq_refl).
Defined.

(** ** Further runs *)

(** The keys of an answer match the fields of the structs whatever their
    case, and the statistics read back render as in the specification. *)
Example Stats_of_service :
  (Stats any_url (service stats_body) start).1
  = (Some (mkStatistics 1048576 0 3 1 2), nil_error)
  /\ Statistics_String (mkStatistics 1048576 0 3 1 2)
     = "1024 KB/s DL, 0 KB/s UL, 3 torrents (1 active, 2 paused)".
Proof. split; vm_compute; reflexivity. Qed.

Example Add_duplicate :
  (Add any_url (service duplicate_body) magnet start).1
  = ("", Some (errorString "transmission: result: duplicate torrent")).
Proof. vm_compute. reflexivity. Qed.

(** An answer that is not JSON, or not an object, is an error of the
    decoder, and no name comes with it. *)
Example Add_not_json :
  (Add any_url (service "<html>") magnet start).1
  = ("", Some (jsonError "json: syntax error"))
  /\ (Add any_url (service "[]") magnet start).1
     = ("", Some (jsonError
                   "json: cannot unmarshal array into Go value of type transmission.torrentAdd")).
Proof. split; vm_compute; reflexivity. Qed.

(** Without a session header the probe fails and no call goes out. *)
Example Stats_without_session :
  Stats any_url (mkConn "http://localhost:9091" (scripted (ok "") (ok stats_body)))
    start
  = ((None, errors.New "transmission: sessionId not found"),
     mkNet 1%nat [http.mkRequest "GET" "http://localhost:9091/transmission/rpc" ∅ ""]).
Proof. vm_compute. reflexivity. Qed.

(** Two calls in a row: each one carries the id of its own probe. *)
Example ids_rotate :
  map (fun req => http.ReqHeader req !! sessionHeader)
    (sent ((_ ← Add any_url (service ubuntu_body) magnet;
            Stats any_url (service ubuntu_body)) start).2)
  = [None; Some ["0"]; None; Some ["1"]].
Proof. vm_compute. reflexivity. Qed.

(** * Further properties of the package *)

Section Further.

Context {World : Type}.
Variable url_Parse : string -> error.

Implicit Types (c : Conn World) (n : Net World).

(** ** One round, and no memory *)

(** The log after [rpc] is the log before it and the requests of one
    [rpc]. *)
Lemma rpc_log c request n :
  exists l,
    sent (rpc url_Parse c request n).2 = (sent n ++ l)%list
    /\ rpc_requests url_Parse c request n l.
Proof.
  rewrite rpc_unfold, sessionId_unfold.
  destruct (url_Parse (url c +:+ rpcPath)) as [e|] eqn:Hurl.
  { exists []. simpl. rewrite app_nil_r. split; [reflexivity|].
    constructor. congruence. }
  destruct (client c (probe c) (world n)) as [[e|resp] w1] eqn:Hget.
  { exists [probe c]. split; [reflexivity | constructor]. }
  destruct (http.Header resp !! sessionHeader) as [[|token vs]|] eqn:Hhdr;
    try (exists [probe c]; split; [reflexivity | constructor]).
  destruct (json.Marshal request) as [js [e|]] eqn:Hjs.
  { exists [probe c]. split; [reflexivity | constructor]. }
  simpl. destruct (client c (call c token js) w1) as [r w2].
  exists [probe c; call c token js]. simpl. rewrite <- app_assoc.
  split; [reflexivity | econstructor; eauto].
Qed.

Lemma rpc_bounded c request n :
  bounded_run c n (rpc url_Parse c request n).2.
Proof.
  destruct (rpc_log c request n) as (l & Hsent & Hl).
  unfold bounded_run. rewrite (issued_app _ _ _ Hsent).
  split; [exact Hsent|].
  destruct Hl as [_ | | resp w1 token vs js _ _ _].
  - left. reflexivity.
  - right. left. reflexivity.
  - right. right. exists token, js. reflexivity.
Qed.

(** X1: the transport and both operations send one round at most, whatever
    the service answers: the probe, then one call; the log only grows.
    Nothing is sent again. *)
Theorem one_round_per_operation c request u n :
  bounded_run c n (rpc url_Parse c request n).2
  /\ bounded_run c n (Stats url_Parse c n).2
  /\ bounded_run c n (Add url_Parse c u n).2.
Proof.
  rewrite Stats_net, Add_net. repeat split; apply rpc_bounded.
Qed.




(** ** Failures on the way *)

(** X3: when the probe fails, for whatever reason, both operations fail with
    the error of the probe, return no statistics and the empty name, and
    stop where the probe stopped: no call is sent. *)
Theorem probe_failure_stops_operations c u n e :
  (sessionId url_Parse c n).1.2 = Some e ->
  Stats url_Parse c n = ((None, Some e), (sessionId url_Parse c n).2)
  /\ Add url_Parse c u n = (("", Some e), (sessionId url_Parse c n).2)
  /\ (forall req, req ∈ issued n (sessionId url_Parse c n).2 -> req = probe c).
Proof.
  intros He. repeat split.
  - rewrite Stats_unfold, rpc_unfold.
    destruct (sessionId url_Parse c n) as [[token err] n1].
    simpl in He. subst err. reflexivity.
  - rewrite Add_unfold, rpc_unfold.
    destruct (sessionId url_Parse c n) as [[token err] n1].
    simpl in He. subst err. reflexivity.
  - intros req. rewrite sessionId_unfold.
    destruct (url_Parse (url c +:+ rpcPath)) as [e'|].
    { simpl. unfold issued. rewrite drop_all. inversion 1. }
    destruct (client c (probe c) (world n)) as [r w1]. simpl.
    unfold issued. simpl. rewrite drop_app_length.
    intros Hin. now apply list_elem_of_singleton in Hin.
Qed.

(** X4: when both round trips are answered, [rpc] returns the bytes of the
    body of the answer and the error of reading it, whatever the status
    and the header of the answer; the call is made in the world the probe
    left behind. *)
Theorem rpc_returns_body c request n resp1 w1 token vs js resp2 w2 :
  url_Parse (url c +:+ rpcPath) = None ->
  client c (probe c) (world n) = (inr resp1, w1) ->
  http.Header resp1 !! sessionHeader = Some (token :: vs) ->
  json.Marshal request = (js, nil_error) ->
  client c (call c token js) w1 = (inr resp2, w2) ->
  rpc url_Parse c request n
  = ((http.content (http.Body resp2), http.readError (http.Body resp2)),
     mkNet w2 (sent n ++ [probe c; call c token js])).
Proof.
  intros Hurl Hget Hhdr Hjs Hcall.
  rewrite rpc_unfold, sessionId_unfold, Hurl, Hget, Hhdr. simpl.
  rewrite Hjs. simpl. rewrite Hcall, <- app_assoc. reflexivity.
Qed.

(** X5: a request that cannot be encoded is found out after the probe: the
    probe is sent, the call is not, and the error of the encoder comes
    back.  The requests of [Stats] and of [Add] always encode. *)
Theorem rpc_unencodable c request n token js e :
  (sessionId url_Parse c n).1 = (token, nil_error) ->
  json.Marshal request = (js, Some e) ->
  rpc url_Parse c request n = (("", Some e), (sessionId url_Parse c n).2)
  /\ issued n (rpc url_Parse c request n).2 = [probe c]
  /\ (json.Marshal statsRequest).2 = nil_error
  /\ (forall u', (json.Marshal (addRequest u')).2 = nil_error).
Proof.
  intros Hid Hjs.
  assert (Hrpc : rpc url_Parse c request n
                 = (("", Some e), (sessionId url_Parse c n).2)).
  { rewrite rpc_unfold.
    destruct (sessionId url_Parse c n) as [[token' err] n1].
    simpl in Hid. injection Hid as -> ->. now rewrite Hjs. }
  split; [exact Hrpc | split; [|split]].
  - rewrite Hrpc. simpl. revert Hid. rewrite sessionId_unfold.
    destruct (url_Parse (url c +:+ rpcPath)) as [e'|]; [discriminate|].
    destruct (client c (probe c) (world n)) as [r w1]. simpl. intros _.
    unfold issued. simpl. apply drop_app_length.
  - now rewrite Marshal_statsRequest.
  - intros u'. now rewrite Marshal_addRequest.
Qed.

(** X6: a call that is not answered, or whose answer breaks off while it is
    read, fails the operation with that very error, with no statistics and
    the empty name, even when the bytes read so far are a whole answer. *)
Theorem call_failure_fails_operations c u n resp1 w1 token vs e :
  url_Parse (url c +:+ rpcPath) = None ->
  client c (probe c) (world n) = (inr resp1, w1) ->
  http.Header resp1 !! sessionHeader = Some (token :: vs) ->
  (forall r w2,
      client c (call c token stats_text) w1 = (r, w2) ->
      call_failed r e ->
      Stats url_Parse c n
      = ((None, Some e),
         mkNet w2 (sent n ++ [probe c; call c token stats_text])))
  /\ (forall r w2,
        client c (call c token (add_text (json.quote u))) w1 = (r, w2) ->
        call_failed r e ->
        Add url_Parse c u n
        = (("", Some e),
           mkNet w2 (sent n ++ [probe c;
                                call c token (add_text (json.quote u))]))).
Proof.
  intros Hurl Hget Hhdr. split.
  - intros r w2 Hcall Hfail.
    rewrite Stats_unfold, rpc_unfold, Marshal_statsRequest.
    rewrite sessionId_unfold, Hurl, Hget, Hhdr. simpl.
    rewrite Hcall, <- app_assoc.
    destruct Hfail as [-> | (resp & -> & Hread)]; simpl; [reflexivity|].
    now rewrite Hread.
  - intros r w2 Hcall Hfail.
    rewrite Add_unfold, rpc_unfold, Marshal_addRequest.
    rewrite sessionId_unfold, Hurl, Hget, Hhdr. simpl.
    rewrite Hcall, <- app_assoc.
    destruct Hfail as [-> | (resp & -> & Hread)]; simpl; [reflexivity|].
    now rewrite Hread.
Qed.

(** ** The results of the operations *)

(** X7: a result other than ["success"] fails [Add] with the error of that
    result, whatever the name in the answer: the result is looked at
    before the name. *)
Theorem Add_by_result c u n b n' r :
  rpc url_Parse c (addRequest u) n = ((b, nil_error), n') ->
  json.Unmarshal decode_torrentAdd b zero_torrentAdd = (r, nil_error) ->
  torrentAdd_Result r <> "success" ->
  Add url_Parse c u n
  = (("", Some (errorString ("transmission: result: " +:+ torrentAdd_Result r))),
     n').
Proof.
  intros Hrpc Hr Hres. rewrite Add_unfold, Hrpc, Hr.
  now rewrite decide_False by assumption.
Qed.

(** X8: [Stats] returns statistics or an error, never both and never neither;
    statistics are those of an answer that was decoded without error and
    whose result is ["success"]. *)
Theorem Stats_nil_iff_error c n :
  ((Stats url_Parse c n).1.1 = None /\ (Stats url_Parse c n).1.2 <> nil_error)
  \/ (exists b r,
        (rpc url_Parse c statsRequest n).1 = (b, nil_error)
        /\ json.Unmarshal decode_sessionStats b zero_sessionStats = (r, nil_error)
        /\ sessionStats_Result r = "success"
        /\ (Stats url_Parse c n).1 = (Some (sessionStats_Arguments r), nil_error)).
Proof.
  rewrite Stats_unfold.
  destruct (rpc url_Parse c statsRequest n) as [[b [e|]] n1]; simpl.
  { left. split; [reflexivity | discriminate]. }
  destruct (json.Unmarshal decode_sessionStats b zero_sessionStats)
    as [r [e|]] eqn:Hr; simpl.
  { left. split; [reflexivity | discriminate]. }
  destruct (decide (sessionStats_Result r = "success")) as [Hres|Hres]; simpl.
  - right. exists b, r. rewrite Hr. auto.
  - left. split; [reflexivity | discriminate].
Qed.

(** X11: the body [Add] sends reads back, as JSON, as the object with the
    method and the two arguments, the file name being the URL byte for
    byte, whatever quotes, backslashes, control or HTML characters it
    holds.  (The bound on the bytes is the range in which the encoder
    modelled here is the library's.) *)
Theorem Add_body_round_trip c u n req :
  ascii_only u = true ->
  req ∈ issued n (Add url_Parse c u n).2 ->
  http.Method req = "POST" ->
  json.parse (http.ReqBody req)
  = Some (json.Object
            [("arguments",
              json.Object [("filename", json.Str u); ("paused", json.Bool false)]);
             ("method", json.Str "torrent-add")]).
Proof.
  intros _ Hin Hpost. rewrite Add_net in Hin.
  pose proof (rpc_call_body url_Parse _ _ _ _ Hin Hpost) as Hjs.
  rewrite Marshal_addRequest in Hjs. injection Hjs as <-.
  apply parse_add_text.
Qed.

End Further.

(** ** Filling the envelopes *)

Lemma decode_struct_skip {T} (goType : string)
    (fields : list (string * json.Decoder T)) k v ms1 ms2 (old : T) :
  json.find_field fields k = None ->
  json.decode_struct goType fields (json.Object (ms1 ++ (k, v) :: ms2)) old
  = json.decode_struct goType fields (json.Object (ms1 ++ ms2)) old.
Proof.
  intros Hk. unfold json.decode_struct. rewrite !fold_left_app. simpl.
  now rewrite Hk.
Qed.

Lemma envelope_field_none {T} (d1 d2 : json.Decoder T) (k : string) :
  json.fold_name k <> "arguments" ->
  json.fold_name k <> "result" ->
  json.find_field [("Arguments", d1); ("Result", d2)] k = None.
Proof.
  intros Ha Hr.
  assert (E1 : String.eqb "Arguments" k = false).
  { apply String.eqb_neq. intros <-. now contradict Ha. }
  assert (E2 : String.eqb "Result" k = false).
  { apply String.eqb_neq. intros <-. now contradict Hr. }
  assert (E3 : json.equal_fold "Arguments" k = false).
  { apply String.eqb_neq. intros E. now contradict Ha. }
  assert (E4 : json.equal_fold "Result" k = false).
  { apply String.eqb_neq. intros E. now contradict Hr. }
  unfold json.find_field. cbn [find fst snd]. rewrite E1, E2.
  cbn [find fst snd]. rewrite E3, E4. reflexivity.
Qed.

(** X10: a member of the answer whose key is neither [arguments] nor [result],
    in any case of the letters, has no part in what the envelopes of
    [Stats] and [Add] are filled with: the answer decodes as it does
    without the member. *)
Theorem unknown_member_skipped b b' ms1 k v ms2 :
  json.parse b = Some (json.Object (ms1 ++ (k, v) :: ms2)) ->
  json.parse b' = Some (json.Object (ms1 ++ ms2)) ->
  json.fold_name k <> "arguments" ->
  json.fold_name k <> "result" ->
  json.Unmarshal decode_sessionStats b zero_sessionStats
  = json.Unmarshal decode_sessionStats b' zero_sessionStats
  /\ json.Unmarshal decode_torrentAdd b zero_torrentAdd
     = json.Unmarshal decode_torrentAdd b' zero_torrentAdd.
Proof.
  intros Hb Hb' Ha Hr. unfold json.Unmarshal. rewrite Hb, Hb'.
  split; apply decode_struct_skip; now apply envelope_field_none.
Qed.

(** A member whose key is not [result] leaves the result of the envelope
    as it was. *)
Lemma envelope_field_cases {T} (d1 d2 : json.Decoder T) (k : string) :
  json.fold_name k <> "result" ->
  json.find_field [("Arguments", d1); ("Result", d2)] k = None
  \/ json.find_field [("Arguments", d1); ("Result", d2)] k = Some d1.
Proof.
  intros Hr.
  assert (E2 : String.eqb "Result" k = false).
  { apply String.eqb_neq. intros <-. now contradict Hr. }
  assert (E4 : json.equal_fold "Result" k = false).
  { apply String.eqb_neq. intros E. now contradict Hr. }
  unfold json.find_field. cbn [find fst snd].
  destruct (String.eqb "Arguments" k); [now right|]. rewrite E2.
  cbn [find fst snd].
  destruct (json.equal_fold "Arguments" k); [now right|]. rewrite E4.
  now left.
Qed.

Lemma sessionStats_Result_kept (members : list (string * json.doc))
    (acc : sessionStats * error) :
  Forall (fun m : string * json.doc => json.fold_name m.1 <> "result") members ->
  sessionStats_Result
    (json.decode_struct "transmission.sessionStats"
       [("Arguments",
         json.field sessionStats_Arguments
           (fun a r => mkSessionStats a (sessionStats_Result r)) decode_Statistics);
        ("Result",
         json.field sessionStats_Result
           (fun s r => mkSessionStats (sessionStats_Arguments r) s)
           json.decode_string)]
       (json.Object members) acc.1).1
  = sessionStats_Result acc.1.
Proof.
  unfold json.decode_struct.
  generalize (@None errorValue). intros e0.
  destruct acc as [old e]. cbn [fst]. clear e.
  set (d1 := json.field sessionStats_Arguments (fun a r => mkSessionStats a (sessionStats_Result r)) decode_Statistics).
  set (d2 := json.field sessionStats_Result _ json.decode_string).
  revert old e0.
  induction members as [|[k v] ms IH]; intros old e0 Hms; [reflexivity|].
  inversion Hms as [|? ? Hk Hms']; subst. cbn [fold_left fst snd].
  destruct (envelope_field_cases d1 d2 k Hk) as [-> | ->].
  - now apply IH.
  - destruct (d1 v old) as [t e1] eqn:Hd.
    rewrite IH by assumption.
    unfold d1, json.field in Hd.
    destruct (decode_Statistics v (sessionStats_Arguments old)) as [a e2].
    now injection Hd as <- _.
Qed.

Lemma torrentAdd_Result_kept (members : list (string * json.doc))
    (acc : torrentAdd * error) :
  Forall (fun m : string * json.doc => json.fold_name m.1 <> "result") members ->
  torrentAdd_Result
    (json.decode_struct "transmission.torrentAdd"
       [("Arguments",
         json.field torrentAdd_Arguments
           (fun a r => mkTorrentAdd a (torrentAdd_Result r))
           decode_torrentAddedArguments);
        ("Result",
         json.field torrentAdd_Result
           (fun s r => mkTorrentAdd (torrentAdd_Arguments r) s)
           json.decode_string)]
       (json.Object members) acc.1).1
  = torrentAdd_Result acc.1.
Proof.
  unfold json.decode_struct.
  generalize (@None errorValue). intros e0.
  destruct acc as [old e]. cbn [fst]. clear e.
  set (d1 := json.field torrentAdd_Arguments (fun a r => mkTorrentAdd a (torrentAdd_Result r)) decode_torrentAddedArguments).
  set (d2 := json.field torrentAdd_Result _ json.decode_string).
  revert old e0.
  induction members as [|[k v] ms IH]; intros old e0 Hms; [reflexivity|].
  inversion Hms as [|? ? Hk Hms']; subst. cbn [fold_left fst snd].
  destruct (envelope_field_cases d1 d2 k Hk) as [-> | ->].
  - now apply IH.
  - destruct (d1 v old) as [t e1] eqn:Hd.
    rewrite IH by assumption.
    unfold d1, json.field in Hd.
    destruct (decode_torrentAddedArguments v (torrentAdd_Arguments old)) as [a e2].
    now injection Hd as <- _.
Qed.

(** An answer that says nothing of a result decodes to an envelope with
    the empty result. *)
Lemma lacks_result_decoded (j : json.doc) :
  lacks_result j ->
  sessionStats_Result (decode_sessionStats j zero_sessionStats).1 = ""
  /\ torrentAdd_Result (decode_torrentAdd j zero_torrentAdd).1 = "".
Proof.
  destruct j as [| | | | |members]; try contradiction.
  - intros _. split; reflexivity.
  - intros Hms. split.
    + exact (sessionStats_Result_kept members (zero_sessionStats, nil_error) Hms).
    + exact (torrentAdd_Result_kept members (zero_torrentAdd, nil_error) Hms).
Qed.

(** X9: an answer that says nothing of a result, [null] or an object without
    that key, fails both operations: with the error of the decoder if a
    member has the wrong type, and else with the error of a result that
    names no reason, ["transmission: result: "]. *)
Theorem missing_result_fails {World} (url_Parse : string -> error)
    (c : Conn World) (u : string) (n n' : Net World) (b : string) (j : json.doc) :
  json.parse b = Some j ->
  lacks_result j ->
  (rpc url_Parse c statsRequest n = ((b, nil_error), n') ->
   Stats url_Parse c n
   = ((None, Some (errorString "transmission: result: ")), n')
   \/ exists r e,
       json.Unmarshal decode_sessionStats b zero_sessionStats = (r, Some e)
       /\ Stats url_Parse c n = ((None, Some e), n'))
  /\ (rpc url_Parse c (addRequest u) n = ((b, nil_error), n') ->
      Add url_Parse c u n
      = (("", Some (errorString "transmission: result: ")), n')
      \/ exists r e,
          json.Unmarshal decode_torrentAdd b zero_torrentAdd = (r, Some e)
          /\ Add url_Parse c u n = (("", Some e), n')).
Proof.
  intros Hb Hj. destruct (lacks_result_decoded j Hj) as [Hs Ha]. split.
  - intros Hrpc. rewrite Stats_unfold, Hrpc. unfold json.Unmarshal. rewrite Hb.
    destruct (decode_sessionStats j zero_sessionStats) as [r [e|]] eqn:Hr.
    + right. exists r, e. split; reflexivity.
    + left. simpl in Hs. rewrite Hs. reflexivity.
  - intros Hrpc. rewrite Add_unfold, Hrpc. unfold json.Unmarshal. rewrite Hb.
    destruct (decode_torrentAdd j zero_torrentAdd) as [r [e|]] eqn:Hr.
    + right. exists r, e. split; reflexivity.
    + left. simpl in Ha. rewrite Ha. reflexivity.
Qed.

(** ** The rendering of small speeds *)

(** X12: speeds of less than 1024 bytes a second, in either direction of zero,
    are rendered as 0 KB/s: the division drops the remainder and its
    sign. *)
Theorem String_below_one_KB (s : Statistics) :
  -1024 < DownloadSpeed s < 1024 ->
  -1024 < UploadSpeed s < 1024 ->
  Statistics_String s =
    "0 KB/s DL, 0 KB/s UL, " +:+
    pretty (TorrentCount s) +:+ " torrents (" +:+
    pretty (ActiveTorrentCount s) +:+ " active, " +:+
    pretty (PausedTorrentcount s) +:+ " paused)".
Proof.
  intros Hd Hu.
  assert (Hd0 : DownloadSpeed s `quot` 1024 = 0) by (apply Z.quot_small_iff; lia).
  assert (Hu0 : UploadSpeed s `quot` 1024 = 0) by (apply Z.quot_small_iff; lia).
  unfold Statistics_String. rewrite Hd0, Hu0. reflexivity.
Qed.

(** ** The channels of the example bot *)

Lemma split_comma_step (c : ascii) (r : string) :
  strings.split_from "," 0 (String c r) =
  if Ascii.eqb "," c
  then "" :: strings.split_from "," 0 r
  else match strings.split_from "," 0 r with
       | piece :: pieces => String c piece :: pieces
       | [] => [String c ""]
       end.
Proof.
  cbn [strings.split_from strings.HasPrefix].
  destruct (Ascii.eqb "," c); [destruct r; reflexivity | reflexivity].
Qed.

Lemma split_comma_not_nil (s : string) : strings.split_from "," 0 s <> [].
Proof.
  destruct s as [|c r]; [discriminate|]. rewrite split_comma_step.
  destruct (Ascii.eqb "," c); [discriminate|].
  destruct (strings.split_from "," 0 r); discriminate.
Qed.

(** X13: the channels joined by commas are the flag again: nothing of the flag
    is dropped or trimmed. *)
Theorem main_channels_join (flag : string) :
  strings.Join (main_channels flag) "," = flag.
Proof.
  unfold main_channels, strings.Split, strings.Join.
  induction flag as [|c r IH]; [reflexivity|].
  rewrite split_comma_step.
  pose proof (split_comma_not_nil r) as Hne.
  destruct (strings.split_from "," 0 r) as [|piece pieces]; [contradiction|].
  destruct (Ascii.eqb "," c) eqn:Hc.
  - apply Ascii.eqb_eq in Hc. subst c.
    change (String.concat "," ("" :: piece :: pieces))
      with (String "," (String.concat "," (piece :: pieces))).
    now rewrite IH.
  - destruct pieces as [|p ps].
    + simpl in IH |- *. now rewrite IH.
    + change (String.concat "," (String c piece :: p :: ps))
        with (String c (String.concat "," (piece :: p :: ps))).
      now rewrite IH.
Qed.

(** X14: there is one channel more than the flag has commas, and no channel
    holds a comma.  So the list is never empty: with the flag left out,
    the bot is made for one channel, the one with the empty name. *)
Theorem main_channels_shape (flag : string) :
  length (main_channels flag) = S (strings.CountByte flag ",")
  /\ Forall (fun channel => strings.CountByte channel "," = O) (main_channels flag)
  /\ main_channels default_channels = [""].
Proof.
  unfold main_channels, strings.Split.
  split; [|split; [|reflexivity]].
  - induction flag as [|c r IH]; [reflexivity|].
    rewrite split_comma_step. pose proof (split_comma_not_nil r) as Hne.
    cbn [strings.CountByte]. rewrite (Ascii.eqb_sym c ",").
    destruct (Ascii.eqb "," c).
    + cbn [length]. now rewrite IH.
    + destruct (strings.split_from "," 0 r); [contradiction|]. exact IH.
  - induction flag as [|c r IH]; [repeat constructor|].
    rewrite split_comma_step. pose proof (split_comma_not_nil r) as Hne.
    destruct (Ascii.eqb "," c) eqn:Hc.
    + constructor; [reflexivity | exact IH].
    + destruct (strings.split_from "," 0 r) as [|piece pieces]; [contradiction|].
      inversion IH as [|? ? Hp Hps]; subst. constructor; [|exact Hps].
      cbn [strings.CountByte]. rewrite (Ascii.eqb_sym c ","), Hc. exact Hp.
Qed.

(** ** The further properties at work *)


Lemma probe_failure_stops_operations_witness :
  Stats any_url bare start
  = ((None, errors.New "transmission: sessionId not found"),
     (sessionId any_url bare start).2)
  /\ Add any_url bare magnet start
     = (("", errors.New "transmission: sessionId not found"),
        (sessionId any_url bare start).2)
  /\ (forall req, req ∈ issued start (sessionId any_url bare start).2 ->
      req = probe bare).
Proof.
  exact (probe_failure_stops_operations any_url bare magnet start
           (errorString "transmission: sessionId not found") eq_refl).
Defined.

(** A refusal with status 409 and a page for a body is returned like any
    answer. *)
Lemma rpc_returns_body_witness :
  rpc any_url stale statsRequest start
  = (("<h1>409: Conflict</h1>", nil_error),
     mkNet 2%nat [probe stale; call stale "abc" stats_text]).
Proof.
  apply (rpc_returns_body any_url stale statsRequest start
           (conflict_response ["abc"]) 1%nat "abc" [] stats_text refusal 2%nat);
    reflexivity.
Defined.

Lemma rpc_unencodable_witness :
  rpc any_url (service "") unencodable start
  = (("", Some json.unsupported), (sessionId any_url (service "") start).2)
  /\ issued start (rpc any_url (service "") unencodable start).2
     = [probe (service "")]
  /\ (json.Marshal statsRequest).2 = nil_error
  /\ (forall u', (json.Marshal (addRequest u')).2 = nil_error).
Proof.
  apply (rpc_unencodable any_url (service "") unencodable start "0" ""
           json.unsupported).
  - reflexivity.
  - vm_compute. reflexivity.
Defined.

(** The body breaks off after a whole answer naming the torrent: [Add]
    fails all the same. *)
Lemma call_failure_fails_operations_witness :
  Add any_url broken magnet start
  = (("", Some (netError "unexpected EOF")),
     mkNet 2%nat [probe broken; call broken "abc" (add_text (json.quote magnet))]).
Proof.
  apply (proj2 (call_failure_fails_operations any_url broken magnet start
                  (conflict_response ["abc"]) 1%nat "abc" []
                  (netError "unexpected EOF") eq_refl eq_refl eq_refl)
           (inr cut_short) 2%nat).
  - reflexivity.
  - right. exists cut_short. split; reflexivity.
Defined.

Lemma Add_by_result_witness :
  Add any_url (service duplicate_body) magnet start
  = (("", Some (errorString "transmission: result: duplicate torrent")),
     mkNet 1%nat [probe (service duplicate_body);
                  call (service duplicate_body) "0" (add_text (json.quote magnet))]).
Proof.
  apply (Add_by_result any_url (service duplicate_body) magnet start
           duplicate_body _
           (mkTorrentAdd (mkTorrentAddedArguments zero_torrentAdded)
              "duplicate torrent")).
  - vm_compute. reflexivity.
  - vm_compute. reflexivity.
  - discriminate.
Defined.

Lemma Add_body_round_trip_witness :
  json.parse
    (http.ReqBody (call (service ubuntu_body) "0" (add_text (json.quote magnet))))
  = Some (json.Object
            [("arguments",
              json.Object [("filename", json.Str magnet);
                           ("paused", json.Bool false)]);
             ("method", json.Str "torrent-add")]).
Proof.
  apply (Add_body_round_trip any_url (service ubuntu_body) magnet start
           (call (service ubuntu_body) "0" (add_text (json.quote magnet)))).
  - reflexivity.
  - vm_compute. apply list_elem_of_In. right. left. reflexivity.
  - reflexivity.
Defined.

Lemma unknown_member_skipped_witness :
  json.Unmarshal decode_sessionStats tagged_body zero_sessionStats
  = json.Unmarshal decode_sessionStats untagged_body zero_sessionStats
  /\ json.Unmarshal decode_torrentAdd tagged_body zero_torrentAdd
     = json.Unmarshal decode_torrentAdd untagged_body zero_torrentAdd.
Proof.
  apply (unknown_member_skipped tagged_body untagged_body
           [("arguments",
             json.Object
               [("torrent-added",
                 json.Object [("Id", json.Number "1");
                              ("Name", json.Str "Ubuntu.iso");
                              ("HashString", json.Str "abc123")])])]
           "tag" (json.Number "7") [("result", json.Str "success")]).
  - vm_compute. reflexivity.
  - vm_compute. reflexivity.
  - vm_compute. discriminate.
  - vm_compute. discriminate.
Defined.

Lemma String_below_one_KB_witness :
  Statistics_String (mkStatistics (-500) 1023 3 1 2)
  = "0 KB/s DL, 0 KB/s UL, 3 torrents (1 active, 2 paused)".
Proof.
  apply (String_below_one_KB (mkStatistics (-500) 1023 3 1 2)); simpl; lia.
Defined.

Lemma missing_result_fails_witness :
  Stats any_url (service resultless_body) start
  = ((None, Some (errorString "transmission: result: ")),
     mkNet 1%nat [probe (service resultless_body);
                  call (service resultless_body) "0" stats_text]).
Proof.
  assert (Hb : json.parse resultless_body
               = Some (json.Object
                         [("arguments",
                           json.Object [("torrentCount", json.Number "3")])]))
    by (vm_compute; reflexivity).
  assert (Hj : lacks_result
                 (json.Object
                    [("arguments",
                      json.Object [("torrentCount", json.Number "3")])])).
  { constructor; [vm_compute; discriminate | constructor]. }
  assert (Hrpc : rpc any_url (service resultless_body) statsRequest start
                 = ((resultless_body, nil_error),
                    mkNet 1%nat [probe (service resultless_body);
                                 call (service resultless_body) "0" stats_text]))
    by (vm_compute; reflexivity).
  destruct (proj1 (missing_result_fails any_url (service resultless_body) magnet
                     _ _ _ _ Hb Hj) Hrpc) as [H | (r & e & Hr & _)].
  - exact H.
  - vm_compute in Hr. discriminate Hr.
Defined.
